(** * faulted_earth_fault.py: a shallow embedding and its properties

    The module under study is a prototype of the Faulted Earth data model:
    one helper that normalises (preferred, minimum, maximum) tuples, the
    [Parameter] class, a family of observation classes and the fault
    containers.  Every class only stores what it is given, so what matters
    is the order in which the statements of each constructor run and which
    exception the first failing statement raises.

    The embedding follows the Python text statement by statement:
    - values are a small universe [pyval]; lists, dicts and class instances
      live in a heap and are handled through references, so that aliasing
      and identity are visible;
    - a function is an action of the monad [M] (heap passing, with Python
      exceptions as the error case);
    - names that a function body reads and that are not among its
      parameters are resolved through the module namespace and the builtins
      ([load_name]), as the interpreter does at run time;
    - the binding of call arguments to parameters is [bind_args].

    Python 3 semantics with assertions enabled (no -O) is assumed. *)

From Stdlib Require Import ZArith String List Lia.
From Stdlib.Floats Require Import SpecFloat.
From stdpp Require Import gmap strings list.

Local Open Scope string_scope.
Local Open Scope list_scope.
Local Open Scope Z_scope.

(** ** Values, objects and the heap *)

(** The classes that the module mentions: the builtin types it tests
    against, the three geometry classes it imports from
    openquake.hazardlib.geo and the classes it defines itself. *)
Inductive class :=
| CObject | CType | CFunction | CModule | CNoneType
| CBool | CInt | CFloat | CStr | CTuple | CList | CDict
| CPoint | CLine | CPolygon
| CParameter
| CBaseObservation | CObservationDisplacement | CObservationEvent
| CObservationGeometry | CObservationSlipRate
| CFaultTrace | CDisplacement | CBaseFault.

#[global] Instance class_eq_dec : EqDecision class.
Proof. solve_decision. Defined.

(** The direct base of a class ([bool] derives from [int], the four
    observation classes from [BaseObservation], everything else from
    [object]). *)
Definition base (c : class) : option class :=
  match c with
  | CObject => None
  | CBool => Some CInt
  | CObservationDisplacement | CObservationEvent
  | CObservationGeometry | CObservationSlipRate => Some CBaseObservation
  | _ => Some CObject
  end.

(** Method resolution order; no chain in the module is longer than three. *)
Definition mro (c : class) : list class :=
  c :: match base c with
       | None => []
       | Some b => b :: match base b with
                        | None => []
                        | Some o => [o]
                        end
       end.

Definition issubclass (c d : class) : bool := bool_decide (d ∈ mro c).

(** Addresses of heap objects. *)
Abbreviation loc := nat.

(** A Python float is an IEEE 754 binary64 number. *)
Definition prec : Z := 53.
Definition emax : Z := 1024.

#[warnings="-register-all"]
Inductive pyval :=
| VNone
| VBool (b : bool)
| VInt (z : Z)
| VFloat (f : spec_float)
| VStr (s : string)
| VTuple (xs : list pyval)
| VRef (l : loc)
| VType (c : class)
| VFunc (name : string)
| VModule (name : string).

(** Mutable objects.  The keys of every dict the module reads are string
    literals, so a dict is a finite map on strings. *)
Inductive object :=
| Instance (cls : class) (attrs : gmap string pyval)
| ListObj (items : list pyval)
| DictObj (items : gmap string pyval).

(** The heap is a growing array of objects; an address is an index. *)
Abbreviation heap := (list object).

Inductive exn :=
| ValueError (msg : string)
| TypeError
| NameError (name : string)
| KeyError (key : string)
| AttributeError (name : string)
| AssertionError.

Inductive result (A : Type) :=
| Ok (a : A)
| Raise (e : exn).
Arguments Ok {A} a.
Arguments Raise {A} e.

(** ** The monad of Python actions *)

Definition M (A : Type) : Type := heap -> result (A * heap).

Definition ret {A} (a : A) : M A := fun h => Ok (a, h).
Definition raise {A} (e : exn) : M A := fun _ => Raise e.
Definition bind {A B} (m : M A) (k : A -> M B) : M B :=
  fun h => match m h with
           | Ok (a, h') => k a h'
           | Raise e => Raise e
           end.

Notation "'let*' x ':=' m 'in' k" := (bind m (fun x => k))
  (at level 10, x name, m at level 100, k at level 200,
   format "'[v' 'let*'  x  ':='  m  'in' '/' k ']'").
Notation "m '>>' k" := (bind m (fun _ => k))
  (at level 100, k at level 200, right associativity).

(** ** Builtin operations *)

Definition class_of (h : heap) (v : pyval) : class :=
  match v with
  | VNone => CNoneType
  | VBool _ => CBool
  | VInt _ => CInt
  | VFloat _ => CFloat
  | VStr _ => CStr
  | VTuple _ => CTuple
  | VRef l => match h !! l with
              | Some (Instance c _) => c
              | Some (ListObj _) => CList
              | Some (DictObj _) => CDict
              | None => CObject
              end
  | VType _ => CType
  | VFunc _ => CFunction
  | VModule _ => CModule
  end.

(** Truth value of an object in a condition.  None of the classes of the
    module defines __bool__ or __len__, so their instances are true. *)
Definition truthy (h : heap) (v : pyval) : bool :=
  match v with
  | VNone => false
  | VBool b => b
  | VInt z => negb (z =? 0)
  | VFloat (S754_zero _) => false
  | VFloat _ => true
  | VStr s => negb (String.eqb s "")
  | VTuple xs => match xs with [] => false | _ => true end
  | VRef l => match h !! l with
              | Some (ListObj xs) => match xs with [] => false | _ => true end
              | Some (DictObj m) =>
                  match map_to_list m with [] => false | _ => true end
              | _ => true
              end
  | VType _ | VFunc _ | VModule _ => true
  end.

Definition is_true (v : pyval) : M bool := fun h => Ok (truthy h v, h).

(** [isinstance(v, c)] for a class [c] named in the source. *)
Definition isinstance (v : pyval) (c : class) : M bool :=
  fun h => Ok (issubclass (class_of h v) c, h).

(** [isinstance(v, classinfo)] where the second argument is an arbitrary
    value: it has to be a class or a tuple of classes, tried in order. *)
Fixpoint isinstance_info (c : class) (info : pyval) : result bool :=
  match info with
  | VType d => Ok (issubclass c d)
  | VTuple xs =>
      (fix any (l : list pyval) : result bool :=
         match l with
         | [] => Ok false
         | x :: r => match isinstance_info c x with
                     | Ok true => Ok true
                     | Ok false => any r
                     | Raise e => Raise e
                     end
         end) xs
  | _ => Raise TypeError
  end.

Definition isinstance_val (v info : pyval) : M bool :=
  fun h => match isinstance_info (class_of h v) info with
           | Ok b => Ok (b, h)
           | Raise e => Raise e
           end.

Definition py_assert (b : bool) : M unit :=
  if b then ret tt else raise AssertionError.

(** [v[key]] with a string key: only a dict answers; every other object of
    the universe either has no __getitem__ or wants an integer index. *)
Definition subscript (v : pyval) (key : string) : M pyval :=
  fun h => match v with
           | VRef l =>
               match h !! l with
               | Some (DictObj m) =>
                   match m !! key with
                   | Some x => Ok (x, h)
                   | None => Raise (KeyError key)
                   end
               | _ => Raise TypeError
               end
           | _ => Raise TypeError
           end.

(** [v.name] and [v.name = x] on an instance. *)
Definition getattr (v : pyval) (name : string) : M pyval :=
  fun h => match v with
           | VRef l =>
               match h !! l with
               | Some (Instance _ d) =>
                   match d !! name with
                   | Some x => Ok (x, h)
                   | None => Raise (AttributeError name)
                   end
               | _ => Raise (AttributeError name)
               end
           | _ => Raise (AttributeError name)
           end.

Definition setattr (v : pyval) (name : string) (x : pyval) : M unit :=
  fun h => match v with
           | VRef l =>
               match h !! l with
               | Some (Instance c d) =>
                   Ok (tt, <[l := Instance c (<[name := x]> d)]> h)
               | _ => Raise (AttributeError name)
               end
           | _ => Raise (AttributeError name)
           end.

Definition alloc (o : object) : M pyval :=
  fun h => Ok (VRef (length h), h ++ [o]).

(** Calling a class: a fresh empty instance is created and handed to the
    initialiser, and the call evaluates to the instance. *)
Definition instantiate (c : class) (init : pyval -> M unit) : M pyval :=
  let* self := alloc (Instance c ∅) in
  init self >>
  ret self.

(** A tuple has no __call__. *)
Definition call_tuple (xs : list pyval) (args : list pyval) : M pyval :=
  raise TypeError.

(** [range(lo, hi)] *)
Definition range (lo hi : Z) : list Z :=
  map (fun i => lo + Z.of_nat i) (seq 0 (Z.to_nat (hi - lo))).

(** *** Ordering of numbers and strings *)

Definition as_int (v : pyval) : option Z :=
  match v with
  | VInt z => Some z
  | VBool b => Some (Z.b2z b)
  | _ => None
  end.

(** Exact comparison of an integer with a float, as CPython does it. *)
Definition compare_Z_float (z : Z) (f : spec_float) : option comparison :=
  match f with
  | S754_nan => None
  | S754_zero _ => Some (z ?= 0)
  | S754_infinity s => Some (if s then Gt else Lt)
  | S754_finite s m e =>
      let sm := if s then Z.neg m else Z.pos m in
      if 0 <=? e then Some (z ?= sm * 2 ^ e)
      else Some (z * 2 ^ (- e) ?= sm)
  end.

(** Three-way comparison behind [<], [<=], [>], [>=]: [Ok None] is the
    unordered case (a NaN is involved).  Numbers compare with numbers and
    strings with strings; other pairs are not orderable. *)
Definition py_compare (a b : pyval) : result (option comparison) :=
  match a, b with
  | VFloat f, VFloat g => Ok (SFcompare f g)
  | VFloat f, _ =>
      match as_int b with
      | Some z => Ok (option_map CompOpp (compare_Z_float z f))
      | None => Raise TypeError
      end
  | _, VFloat g =>
      match as_int a with
      | Some z => Ok (compare_Z_float z g)
      | None => Raise TypeError
      end
  | VStr s, VStr t => Ok (Some (String.compare s t))
  | _, _ =>
      match as_int a, as_int b with
      | Some x, Some y => Ok (Some (x ?= y))
      | _, _ => Raise TypeError
      end
  end.

Definition py_gt (a b : pyval) : M bool :=
  fun h => match py_compare a b with
           | Ok (Some Gt) => Ok (true, h)
           | Ok _ => Ok (false, h)
           | Raise e => Raise e
           end.

(** [2 * v] for a number [v]. *)
Definition two : spec_float := S754_finite false 4503599627370496 (-51).

Definition py_double (v : pyval) : M pyval :=
  match v with
  | VFloat f => ret (VFloat (SFmul prec emax two f))
  | _ => match as_int v with
         | Some z => ret (VInt (2 * z))
         | None => raise TypeError
         end
  end.

(** ** build_pref_min_max *)

Definition build_pref_min_max (value : pyval) (nval : Z) : M pyval :=
  match value with
  | VTuple xs =>
      if negb (Z.of_nat (length xs) =? nval) then
        raise (ValueError "Preferred-Min-Max must be a tuple of length 3!")
      else
        (* Check maximum is greater than or equal to minimum *)
        let* bad :=
          if nval >? 2 then
            let* v1 := call_tuple xs [VInt 1] in
            let* t1 := is_true v1 in
            if t1 then
              let* v2 := call_tuple xs [VInt 2] in
              let* t2 := is_true v2 in
              if t2 then
                let* a := call_tuple xs [VInt 1] in
                let* b := call_tuple xs [VInt 2] in
                py_gt a b
              else ret false
            else ret false
          else ret false in
        if bad then
          raise (ValueError "Minimum value in tuple is greater than maximum!")
        else ret value
  | _ =>
      (* Data not entered as tuple, return as a tuple *)
      let value := [value] in
      let value := value ++ map (fun _ => VNone) (range 0 (nval - 1)) in
      ret (VTuple value)
  end.

(** ** Names and calls *)

(** The names bound by the module-level statements of the file, in the
    order in which they are bound.  [NeotectonicSection] and
    [NeotectonicFault] are introduced by [def], so they are functions. *)
Definition module_globals : gmap string pyval :=
  list_to_map
    [ ("np", VModule "numpy");
      ("Point", VType CPoint);
      ("Line", VType CLine);
      ("Polygon", VType CPolygon);
      ("build_pref_min_max", VFunc "build_pref_min_max");
      ("Parameter", VType CParameter);
      ("_assert_assign", VFunc "_assert_assign");
      ("BaseObservation", VType CBaseObservation);
      ("ObservationDisplacement", VType CObservationDisplacement);
      ("ObservationEvent", VType CObservationEvent);
      ("ObservationGeometry", VType CObservationGeometry);
      ("ObservationSlipRate", VType CObservationSlipRate);
      ("FaultTrace", VType CFaultTrace);
      ("Displacement", VType CDisplacement);
      ("BaseFault", VType CBaseFault);
      ("NeotectonicSection", VFunc "NeotectonicSection");
      ("NeotectonicFault", VFunc "NeotectonicFault") ].

(** The builtins that the module refers to.  The builtins of Python hold
    many more names, none of which is spelled [identifier], [self] or
    [displacement_observations]. *)
Definition builtins : gmap string pyval :=
  list_to_map
    [ ("object", VType CObject);
      ("type", VType CType);
      ("tuple", VType CTuple);
      ("dict", VType CDict);
      ("int", VType CInt);
      ("float", VType CFloat);
      ("isinstance", VFunc "isinstance");
      ("len", VFunc "len");
      ("range", VFunc "range");
      ("super", VFunc "super") ].

(** Reading a name inside a function body: the local scope first, then the
    module, then the builtins. *)
Definition load_name (locals : gmap string pyval) (name : string) : M pyval :=
  match locals !! name with
  | Some v => ret v
  | None =>
      match module_globals !! name with
      | Some v => ret v
      | None =>
          match builtins !! name with
          | Some v => ret v
          | None => raise (NameError name)
          end
      end
  end.

(** A formal parameter: its name and its default value, if it has one. *)
Definition param : Type := string * option pyval.

Fixpoint bind_positional (ps : list param) (args : list pyval)
  : result (gmap string pyval) :=
  match args, ps with
  | [], _ => Ok ∅
  | a :: args', (n, _) :: ps' =>
      match bind_positional ps' args' with
      | Ok b => Ok (<[n := a]> b)
      | Raise e => Raise e
      end
  | _ :: _, [] => Raise TypeError
  end.

Fixpoint bind_keywords (ps : list param) (bound : gmap string pyval)
    (kwargs : list (string * pyval)) : result (gmap string pyval) :=
  match kwargs with
  | [] => Ok bound
  | (k, v) :: kwargs' =>
      if negb (existsb (String.eqb k) (map fst ps)) then Raise TypeError
      else match bound !! k with
           | Some _ => Raise TypeError
           | None => bind_keywords ps (<[k := v]> bound) kwargs'
           end
  end.

Fixpoint fill_defaults (ps : list param) (bound : gmap string pyval)
  : result (list pyval) :=
  match ps with
  | [] => Ok []
  | (n, d) :: ps' =>
      match (match bound !! n with Some v => Some v | None => d end) with
      | None => Raise TypeError
      | Some v =>
          match fill_defaults ps' bound with
          | Ok vs => Ok (v :: vs)
          | Raise e => Raise e
          end
      end
  end.

(** Binding of the arguments of a call to the parameters of a [def]; the
    values come back in the order of the parameters.  Too many positional
    arguments, an unknown or repeated keyword and a missing argument are
    all reported as TypeError. *)
Definition bind_args (ps : list param) (args : list pyval)
    (kwargs : list (string * pyval)) : M (list pyval) :=
  fun h =>
    match bind_positional ps args with
    | Raise e => Raise e
    | Ok b =>
        match bind_keywords ps b kwargs with
        | Raise e => Raise e
        | Ok b' =>
            match fill_defaults ps b' with
            | Raise e => Raise e
            | Ok vs => Ok (vs, h)
            end
        end
    end.

Definition required (names : list string) : list param :=
  map (fun n => (n, None)) names.

(** ** Parameter *)

Definition Parameter__init__
    (self value minimum maximum completeness distribution : pyval) : M unit :=
  setattr self "value" value >>
  setattr self "minimum" minimum >>
  setattr self "maximum" maximum >>
  setattr self "completeness" completeness >>
  setattr self "distribution" distribution >>
  setattr self "comment" VNone.

Definition Parameter_params : list param :=
  [ ("self", None); ("value", None); ("minimum", Some VNone);
    ("maximum", Some VNone); ("completeness", Some VNone);
    ("distribution", Some VNone) ].

(** The call [Parameter(...)]. *)
Definition new_Parameter (args : list pyval) (kwargs : list (string * pyval))
  : M pyval :=
  instantiate CParameter (fun self =>
    let* b := bind_args Parameter_params (self :: args) kwargs in
    match b with
    | [self; value; minimum; maximum; completeness; distribution] =>
        Parameter__init__ self value minimum maximum completeness distribution
    | _ => raise TypeError
    end).

(** ** _assert_assign *)

Definition _assert_assign (value : pyval) : M pyval :=
  let* ok := isinstance value CParameter in
  py_assert ok >>
  ret value.

(** [self.field = attributes[key]] *)
Definition store (self : pyval) (field : string) (attributes : pyval)
    (key : string) : M unit :=
  let* v := subscript attributes key in
  setattr self field v.

(** [self.field = _assert_assign(attributes[key])] *)
Definition store_checked (self : pyval) (field : string) (attributes : pyval)
    (key : string) : M unit :=
  let* v := subscript attributes key in
  let* v := _assert_assign v in
  setattr self field v.

(** ** BaseObservation and the four observation classes *)

(** Lines 103-114: what follows the assignment of the identifier. *)
Definition BaseObservation_fields (self location attributes : pyval)
  : M unit :=
  let* ok := isinstance location CPoint in
  py_assert ok >>
  setattr self "location" location >>
  store self "scale" attributes "Scale" >>
  let* acc := subscript attributes "Accuracy" in
  let* given := is_true acc in
  (if given then
     store self "accuracy" attributes "Accuracy"
   else
     let* scale := getattr self "scale" in
     let* is_int := isinstance scale CInt in
     let* numeric :=
       if is_int then ret true
       else
         let* scale := getattr self "scale" in
         isinstance scale CFloat in
     if numeric then
       let* scale := getattr self "scale" in
       let* twice := py_double scale in
       setattr self "accuracy" twice
     else
       setattr self "accuracy" VNone) >>
  store self "notes" attributes "Notes" >>
  store self "fault_section" attributes "Fault Section" >>
  store self "site_feature" attributes "Site Feature".

(** The second parameter is spelled [identifer] in the signature, while the
    first statement of the body reads [identifier]. *)
Definition BaseObservation__init__
    (self identifer location attributes : pyval) : M unit :=
  let locals : gmap string pyval :=
    list_to_map [ ("self", self); ("identifer", identifer);
                  ("location", location); ("attributes", attributes) ] in
  let* identifier := load_name locals "identifier" in
  setattr self "id" identifier >>
  BaseObservation_fields self location attributes.

Definition ObservationDisplacement__init__
    (self identifier location attributes : pyval) : M unit :=
  BaseObservation__init__ self identifier location attributes >>
  store self "total_disp" attributes "Total Displacement" >>
  store self "category" attributes "Category" >>
  store self "horizontal_disp" attributes "Horizontal" >>
  store self "vertical_disp" attributes "Vertical" >>
  store self "net_disp" attributes "Net" >>
  store_checked self "displacement" attributes "Displacement".

Definition ObservationEvent__init__
    (self identifier location attributes : pyval) : M unit :=
  BaseObservation__init__ self identifier location attributes >>
  store_checked self "recurrence" attributes "Recurrence Interval" >>
  store self "recurrence_category" attributes "Recurrence Category" >>
  store_checked self "movement" attributes "Movement" >>
  store self "movement_category" attributes "Movement Category" >>
  store self "historic_event" attributes "Historic Event" >>
  store self "prehistoric_event" attributes "Prehistoric Event" >>
  store self "marker_age" attributes "Marker Age".

Definition ObservationGeometry__init__
    (self identifier location attributes : pyval) : M unit :=
  BaseObservation__init__ self identifier location attributes >>
  store self "dip_dir" attributes "Dip Direction" >>
  store self "down_side" attributes "Downthrown Side" >>
  store self "strike" attributes "Strike" >>
  store self "dip" attributes "Dip".

Definition ObservationSlipRate__init__
    (self identifier location attributes : pyval) : M unit :=
  BaseObservation__init__ self identifier location attributes >>
  store_checked self "dip_slip" attributes "Dip Slip" >>
  store_checked self "strike_slip" attributes "Strike-Slip" >>
  store_checked self "vertical_slip" attributes "Vertical" >>
  store_checked self "net_slip" attributes "Net Slip" >>
  store_checked self "hv_ratio" attributes "HV Ratio" >>
  store_checked self "rake" attributes "Rake" >>
  store self "slip_category" attributes "Slip Category" >>
  store_checked self "slip_type" attributes "Slip Type" >>
  store_checked self "aseismic" attributes "Aseismic".

(** The observation classes, and the initialiser each of them runs. *)
Inductive variant :=
| Displacement_obs | Event_obs | Geometry_obs | SlipRate_obs.

Definition variant_class (k : variant) : class :=
  match k with
  | Displacement_obs => CObservationDisplacement
  | Event_obs => CObservationEvent
  | Geometry_obs => CObservationGeometry
  | SlipRate_obs => CObservationSlipRate
  end.

Definition variant_init (k : variant)
  : pyval -> pyval -> pyval -> pyval -> M unit :=
  match k with
  | Displacement_obs => ObservationDisplacement__init__
  | Event_obs => ObservationEvent__init__
  | Geometry_obs => ObservationGeometry__init__
  | SlipRate_obs => ObservationSlipRate__init__
  end.

Definition apply4 (f : pyval -> pyval -> pyval -> pyval -> M unit)
    (b : list pyval) : M unit :=
  match b with
  | [x1; x2; x3; x4] => f x1 x2 x3 x4
  | _ => raise TypeError
  end.

(** The call [ObservationX(...)] for each of the four classes. *)
Definition new_observation (k : variant) (args : list pyval)
    (kwargs : list (string * pyval)) : M pyval :=
  instantiate (variant_class k) (fun self =>
    let* b := bind_args
                (required ["self"; "identifier"; "location"; "attributes"])
                (self :: args) kwargs in
    apply4 (variant_init k) b).

Definition new_ObservationDisplacement := new_observation Displacement_obs.
Definition new_ObservationEvent := new_observation Event_obs.
Definition new_ObservationGeometry := new_observation Geometry_obs.
Definition new_ObservationSlipRate := new_observation SlipRate_obs.

(** The call [BaseObservation(...)] itself. *)
Definition new_BaseObservation (args : list pyval)
    (kwargs : list (string * pyval)) : M pyval :=
  instantiate CBaseObservation (fun self =>
    let* b := bind_args
                (required ["self"; "identifer"; "location"; "attributes"])
                (self :: args) kwargs in
    apply4 BaseObservation__init__ b).

(** ** FaultTrace and Displacement *)

Definition FaultTrace__init__ (self identifier geometry attributes : pyval)
  : M unit :=
  setattr self "id" identifier >>
  let* ok := isinstance geometry CLine in
  py_assert ok >>
  setattr self "geometry" geometry >>
  store self "scale" attributes "Scale" >>
  store self "accuracy" attributes "Accuracy" >>
  store self "notes" attributes "Notes" >>
  store self "name" attributes "Name" >>
  store self "method" attributes "Location Method" >>
  store self "expression" attributes "Geomorphic Expression".

Definition new_FaultTrace (args : list pyval) (kwargs : list (string * pyval))
  : M pyval :=
  instantiate CFaultTrace (fun self =>
    let* b := bind_args
                (required ["self"; "identifier"; "geometry"; "attributes"])
                (self :: args) kwargs in
    apply4 FaultTrace__init__ b).

Definition Displacement__init__ (self attributes : pyval) : M unit :=
  store self "total" attributes "Total" >>
  store self "category" attributes "Category" >>
  store self "horizontal" attributes "Horizontal" >>
  store self "vertical" attributes "Vertical" >>
  store self "net" attributes "Net" >>
  store_checked self "value" attributes "Value".

Definition new_Displacement (args : list pyval)
    (kwargs : list (string * pyval)) : M pyval :=
  instantiate CDisplacement (fun self =>
    let* b := bind_args (required ["self"; "attributes"])
                (self :: args) kwargs in
    match b with
    | [self; attributes] => Displacement__init__ self attributes
    | _ => raise TypeError
    end).

(** ** BaseFault *)

(** The signature of [BaseFault.__init__] is (identifier, name, attributes):
    it has no [self].  The body nevertheless assigns through [self], which
    is therefore read as a free name.  In an assignment the right-hand side
    is evaluated before the target. *)
Section BaseFault_body.
Variables identifier name attributes : pyval.

Definition BaseFault_locals : gmap string pyval :=
  list_to_map [ ("identifier", identifier); ("name", name);
                ("attributes", attributes) ].

(** [self.field = rhs] *)
Definition assign_self (field : string) (rhs : M pyval) : M unit :=
  let* v := rhs in
  let* self := load_name BaseFault_locals "self" in
  setattr self field v.

Definition plain (key : string) : M pyval := subscript attributes key.

Definition checked (key : string) : M pyval :=
  let* v := subscript attributes key in
  _assert_assign v.

Definition BaseFault__init__ : M unit :=
  assign_self "id" (ret identifier) >>
  assign_self "name" (ret name) >>
  assign_self "geometry" (ret VNone) >>
  assign_self "length" (ret VNone) >>
  assign_self "is_episodic" (plain "Episodic") >>
  assign_self "strike" (plain "Strike") >>
  assign_self "surface_dip" (plain "Surface Dip") >>
  assign_self "downside" (plain "Downthrown Side") >>
  assign_self "upper_seismogenic_depth" (checked "Upper Depth") >>
  assign_self "lower_seismogenic_depth" (checked "Lower Depth") >>
  assign_self "dip" (checked "Dip") >>
  assign_self "dip_direction" (checked "Dip Direction") >>
  assign_self "dip_slip" (checked "Dip Slip") >>
  assign_self "strike_slip" (checked "Strike Slip") >>
  assign_self "vertical_slip" (checked "Vertical Slip") >>
  assign_self "aspect" (checked "HV Ratio") >>
  assign_self "slip" (checked "Net Slip") >>
  assign_self "slip_category" (plain "Slip Category") >>
  assign_self "rake" (checked "Rake") >>
  assign_self "slip_type" (checked "Slip Type") >>
  assign_self "aseismic" (checked "Aseismic") >>
  assign_self "displacement" (plain "Displacement") >>
  (* Recurrence Interval (Preferred, Min, Max, Category) *)
  assign_self "recurrence" (checked "Recurrence") >>
  (* Movement (Preferred, Min, Max, Category) *)
  assign_self "movement" (checked "Movement") >>
  (* Historical Event *)
  assign_self "historic" (plain "Historical Event") >>
  assign_self "prehistoric" (plain "Pre-historic") >>
  assign_self "compiler" (ret VNone) >>
  assign_self "contributor" (ret VNone) >>
  assign_self "created" (ret VNone) >>
  assign_self "comment" (ret VNone).
End BaseFault_body.

(** The call [BaseFault(...)]: the new instance is passed first, as for any
    method, and then the arguments of the call. *)
Definition new_BaseFault (args : list pyval) (kwargs : list (string * pyval))
  : M pyval :=
  instantiate CBaseFault (fun self =>
    let* b := bind_args (required ["identifier"; "name"; "attributes"])
                (self :: args) kwargs in
    match b with
    | [identifier; name; attributes] =>
        BaseFault__init__ identifier name attributes
    | _ => raise TypeError
    end).

(** ** NeotectonicSection and NeotectonicFault *)

(** [def NeotectonicSection(BaseFault): ...] is a function of one parameter
    called [BaseFault].  Its body is a docstring and the definition of a
    local function [__init__], which is neither called nor returned; the
    call falls off the end of the body and evaluates to None. *)
Definition NeotectonicSection (args : list pyval)
    (kwargs : list (string * pyval)) : M pyval :=
  let* b := bind_args (required ["BaseFault"]) args kwargs in
  ret VNone.

(** [def NeotectonicFault(object): ...], likewise. *)
Definition NeotectonicFault (args : list pyval)
    (kwargs : list (string * pyval)) : M pyval :=
  let* b := bind_args (required ["object"]) args kwargs in
  ret VNone.

(** The local function [__init__] in the body of [NeotectonicFault]
    (lines 316-326).  No call of the module or of a client can reach it; it
    is given here for what it would do with a [self] at hand. *)
Definition NeotectonicFault__init__
    (self identifier name sections attributes : pyval) : M unit :=
  let locals : gmap string pyval :=
    list_to_map [ ("self", self); ("identifier", identifier);
                  ("name", name); ("sections", sections);
                  ("attributes", attributes) ] in
  setattr self "id" identifier >>
  setattr self "name" name >>
  setattr self "sections" sections >>
  let* dict := load_name locals "dict" in
  let* is_dict := isinstance_val dict attributes in
  if is_dict then
    (* Attributes defined for fault *)
    let* id := getattr self "id" in
    let* nm := getattr self "name" in
    let* data := new_BaseFault [id; nm; attributes] [] in
    setattr self "data" data
  else
    setattr self "data" VNone.

(** ** The end-to-end scenario of the specification

    A client builds three slip-rate observations, puts them in a list,
    builds a section from them and a trace geometry, and a fault from the
    section. *)
Definition end_to_end (p1 p2 p3 a1 a2 a3 trace section_attributes : pyval)
  : M pyval :=
  let* o1 := new_ObservationSlipRate [VStr "S1"; p1; a1] [] in
  let* o2 := new_ObservationSlipRate [VStr "S2"; p2; a2] [] in
  let* o3 := new_ObservationSlipRate [VStr "S3"; p3; a3] [] in
  let* slip_obs := alloc (ListObj [o1; o2; o3]) in
  let* section :=
    NeotectonicSection [VStr "SEC1"; VStr "Section"; section_attributes]
      [("geometry", trace); ("slip_obs", slip_obs)] in
  let* sections := alloc (ListObj [section]) in
  NeotectonicFault [VStr "F1"; VStr "Fault"; sections] [].

(** ** Observing the heap *)

Definition instance_at (h : heap) (v : pyval)
  : option (class * gmap string pyval) :=
  match v with
  | VRef l => match h !! l with
              | Some (Instance c d) => Some (c, d)
              | _ => None
              end
  | _ => None
  end.

Definition dict_at (h : heap) (v : pyval) : option (gmap string pyval) :=
  match v with
  | VRef l => match h !! l with
              | Some (DictObj m) => Some m
              | _ => None
              end
  | _ => None
  end.

(** The attribute [name] of the instance that [v] refers to, if any. *)
Definition attr (h : heap) (v : pyval) (name : string) : option pyval :=
  match instance_at h v with
  | Some (_, d) => d !! name
  | None => None
  end.

(** The heap in which the instance behind [v] has the attributes [d]. *)
Definition put (h : heap) (v : pyval) (c : class) (d : gmap string pyval)
  : heap :=
  match v with
  | VRef l => <[l := Instance c d]> h
  | _ => h
  end.

(** ** Notions used in the statements *)

Definition is_tuple (v : pyval) : bool :=
  match v with VTuple _ => true | _ => false end.

Definition is_none (v : pyval) : bool :=
  match v with VNone => true | _ => false end.

(** [a <= b] holds. *)
Definition py_le (a b : pyval) : bool :=
  match py_compare a b with
  | Ok (Some Lt) | Ok (Some Eq) => true
  | _ => false
  end.

(** Bounds are in order when, both of them being present, the minimum is
    at most the maximum. *)
Definition ordered (minimum maximum : pyval) : Prop :=
  is_none minimum = false -> is_none maximum = false ->
  py_le minimum maximum = true.

(** The invariant of the data model, on the object [p] of the heap [h]. *)
Definition Parameter_invariant (h : heap) (p : pyval) : Prop :=
  forall mn mx,
    attr h p "minimum" = Some mn -> attr h p "maximum" = Some mx ->
    ordered mn mx.

Definition is_numeric (v : pyval) : bool :=
  match v with VInt _ | VBool _ | VFloat _ => true | _ => false end.

(** Twice a number, and None for what is not a number. *)
Definition twice (v : pyval) : pyval :=
  match v with
  | VFloat f => VFloat (SFmul prec emax two f)
  | VInt z => VInt (2 * z)
  | VBool b => VInt (2 * Z.b2z b)
  | _ => VNone
  end.

(** The accuracy rule as the specification words it: the supplied Accuracy
    when it is present and not null, else twice the Scale when the Scale is
    a number, else null. *)
Definition spec_accuracy (m : gmap string pyval) : pyval :=
  let from_scale :=
    match m !! "Scale" with
    | Some scale => if is_numeric scale then twice scale else VNone
    | None => VNone
    end in
  match m !! "Accuracy" with
  | Some accuracy => if is_none accuracy then from_scale else accuracy
  | None => from_scale
  end.

(** The rule as lines 105-111 compute it: the test on Accuracy is a truth
    test, so that 0, 0.0, the empty string and empty containers count as
    not given. *)
Definition derived_accuracy (h : heap) (accuracy scale : pyval) : pyval :=
  if truthy h accuracy then accuracy else twice scale.

(** Numbers are immediate values: no heap object is an instance of [int]
    or [float]. *)
Definition unboxed_numbers (h : heap) : bool :=
  forallb (fun o => match o with
                    | Instance c _ =>
                        negb (issubclass c CInt) && negb (issubclass c CFloat)
                    | _ => true
                    end) h.

(** ** Sample data *)

(** A heap with a Point at address 0, an attribute mapping without the key
    Notes at address 1 and the same mapping with Notes set to None at
    address 2. *)
Definition attributes_without_notes : gmap string pyval :=
  list_to_map
    [ ("Scale", VInt 25000); ("Accuracy", VNone);
      ("Fault Section", VNone); ("Site Feature", VNone);
      ("Dip Direction", VNone); ("Downthrown Side", VNone);
      ("Strike", VNone); ("Dip", VNone) ].

Definition sample_heap : heap :=
  [ Instance CPoint ∅;
    DictObj attributes_without_notes;
    DictObj (<["Notes" := VNone]> attributes_without_notes) ].

(** A Point at address 0, a Line at address 1, an attribute mapping with
    Scale 25000 and a null Accuracy at address 2 and an instance to be
    initialised at address 3. *)
Definition survey_attributes : gmap string pyval :=
  list_to_map
    [ ("Scale", VInt 25000); ("Accuracy", VNone); ("Notes", VStr "scarp");
      ("Fault Section", VNone); ("Site Feature", VNone);
      ("Name", VStr "trace"); ("Location Method", VNone);
      ("Geomorphic Expression", VNone) ].

Definition survey_heap : heap :=
  [ Instance CPoint ∅; Instance CLine ∅; DictObj survey_attributes;
    Instance CBaseObservation ∅ ].

(** The accuracy that the body past line 102 leaves on a fresh observation,
    for a given Scale and Accuracy. *)
Definition accuracy_example (scale accuracy : pyval) : option pyval :=
  let m := <["Accuracy" := accuracy]> (<["Scale" := scale]> survey_attributes) in
  let h := [ Instance CPoint ∅; Instance CLine ∅; DictObj m;
             Instance CBaseObservation ∅ ] in
  match BaseObservation_fields (VRef 3%nat) (VRef 0%nat) (VRef 2%nat) h with
  | Ok (_, h') => attr h' (VRef 3%nat) "accuracy"
  | Raise _ => None
  end.

(** A Parameter at address 0 and, at address 1, a mapping for the
    [Displacement] class whose Value is that Parameter. *)
Definition displacement_attributes : gmap string pyval :=
  list_to_map
    [ ("Total", VInt 12); ("Category", VStr "A"); ("Horizontal", VNone);
      ("Vertical", VNone); ("Net", VNone); ("Value", VRef 0%nat) ].

Definition displacement_heap : heap :=
  [ Instance CParameter (list_to_map [("value", VInt 12)]);
    DictObj displacement_attributes ].

(** * Properties *)

(** ** The monad *)

Lemma bind_ok {A B} (m : M A) (k : A -> M B) h a h' :
  m h = Ok (a, h') -> bind m k h = k a h'.
Proof. intros E. unfold bind. now rewrite E. Qed.

Lemma bind_raise {A B} (m : M A) (k : A -> M B) h e :
  m h = Raise e -> bind m k h = Raise e.
Proof. intros E. unfold bind. now rewrite E. Qed.

Lemma bind_ret {A B} (a : A) (k : A -> M B) h : bind (ret a) k h = k a h.
Proof. reflexivity. Qed.

Lemma bind_assoc {A B C} (m : M A) (f : A -> M B) (g : B -> M C) h :
  bind (bind m f) g h = bind m (fun x => bind (f x) g) h.
Proof. unfold bind. now destruct (m h) as [[a h']|e]. Qed.

(** ** Argument binding *)

Lemma bind_positional_error ps args e :
  bind_positional ps args = Raise e -> e = TypeError.
Proof.
  revert ps. induction args as [|a args IH]; intros [|[n d] ps]; simpl;
    try discriminate.
  - now intros [= <-].
  - destruct (bind_positional ps args) eqn:E; [discriminate|].
    intros [= <-]. eauto.
Qed.

Lemma bind_keywords_error ps b kwargs e :
  bind_keywords ps b kwargs = Raise e -> e = TypeError.
Proof.
  revert b. induction kwargs as [|[k v] kwargs IH]; intros b; simpl.
  - discriminate.
  - destruct (negb _); [now intros [= <-]|].
    destruct (b !! k); [now intros [= <-]|]. apply IH.
Qed.

Lemma fill_defaults_error ps b e :
  fill_defaults ps b = Raise e -> e = TypeError.
Proof.
  induction ps as [|[n d] ps IH]; simpl; [discriminate|].
  destruct (match b !! n with Some v => Some v | None => d end);
    [|now intros [= <-]].
  destruct (fill_defaults ps b); [discriminate|].
  intros [= <-]. now apply IH.
Qed.

(** A call whose arguments do not fit the signature raises TypeError and
    nothing else; a call whose arguments fit leaves the heap alone. *)
Lemma bind_args_cases ps args kwargs h :
  bind_args ps args kwargs h = Raise TypeError
  \/ exists vs, bind_args ps args kwargs h = Ok (vs, h).
Proof.
  unfold bind_args.
  destruct (bind_positional ps args) as [b|e] eqn:E1.
  - destruct (bind_keywords ps b kwargs) as [b'|e] eqn:E2.
    + destruct (fill_defaults ps b') as [vs|e] eqn:E3; [eauto|].
      left. now rewrite (fill_defaults_error _ _ _ E3).
    + left. now rewrite (bind_keywords_error _ _ _ _ E2).
  - left. now rewrite (bind_positional_error _ _ _ E1).
Qed.

(** A function of one parameter refuses two or more arguments, however
    they are passed. *)
Lemma one_parameter_call name args kwargs h :
  (2 <= length args + length kwargs)%nat ->
  bind_args (required [name]) args kwargs h = Raise TypeError.
Proof.
  intros Hlen. unfold bind_args, required. simpl.
  destruct args as [|a [|a' args]]; simpl in *.
  - destruct kwargs as [|[k1 v1] [|[k2 v2] kwargs]]; simpl in *; try lia.
    rewrite !orb_false_r.
    destruct (String.eqb_spec k1 name) as [->|]; simpl; [|reflexivity].
    rewrite lookup_empty.
    destruct (String.eqb_spec k2 name) as [->|]; simpl; [|reflexivity].
    now rewrite lookup_insert_eq.
  - destruct kwargs as [|[k1 v1] kwargs]; simpl in *; try lia.
    rewrite !orb_false_r.
    destruct (String.eqb_spec k1 name) as [->|]; simpl; [|reflexivity].
    now rewrite lookup_insert_eq.
  - reflexivity.
Qed.

(** ** build_pref_min_max *)

Lemma nones_range (m : Z) :
  map (fun _ : Z => VNone) (range 0 m) = repeat VNone (Z.to_nat m).
Proof.
  unfold range. rewrite Z.sub_0_r, map_map.
  generalize 0%nat. induction (Z.to_nat m) as [|k IH]; intros s; simpl.
  - reflexivity.
  - now rewrite IH.
Qed.

(** C3. A value that is not a tuple is wrapped, for every arity n >= 1,
    into the tuple (v, None, ..., None) of length exactly n; the heap is
    left as it was and nothing is raised. *)
Theorem build_pref_min_max_scalar (h : heap) (v : pyval) (n : Z) :
  is_tuple v = false ->
  1 <= n ->
  build_pref_min_max v n h
    = Ok (VTuple (v :: repeat VNone (Z.to_nat (n - 1))), h)
  /\ Z.of_nat (length (v :: repeat VNone (Z.to_nat (n - 1)))) = n.
Proof.
  intros Hv Hn. split.
  - destruct v; try discriminate Hv; unfold build_pref_min_max, ret;
      simpl; now rewrite nones_range.
  - simpl. rewrite repeat_length. lia.
Qed.

Lemma build_pref_min_max_scalar_witness :
  build_pref_min_max VNone 4 []
    = Ok (VTuple [VNone; VNone; VNone; VNone], [])
  /\ Z.of_nat (length [VNone; VNone; VNone; VNone]) = 4.
Proof.
  apply (build_pref_min_max_scalar [] VNone 4); [reflexivity | lia].
Defined.

(** C9. A tuple whose length differs from the expected arity is rejected
    with the length ValueError whatever it contains: the length test is the
    first thing done with a tuple. *)
Theorem build_pref_min_max_wrong_length (h : heap) (xs : list pyval) (n : Z) :
  Z.of_nat (length xs) <> n ->
  build_pref_min_max (VTuple xs) n h
    = Raise (ValueError "Preferred-Min-Max must be a tuple of length 3!").
Proof.
  intros Hlen. unfold build_pref_min_max.
  destruct (Z.eqb_spec (Z.of_nat (length xs)) n); [contradiction|].
  reflexivity.
Qed.

Lemma build_pref_min_max_wrong_length_witness :
  build_pref_min_max (VTuple [VInt 1; VInt 9; VInt 2; VInt 0]) 3 []
    = Raise (ValueError "Preferred-Min-Max must be a tuple of length 3!").
Proof.
  apply build_pref_min_max_wrong_length. simpl. lia.
Defined.

(** X2. A tuple of the expected length n > 2, of any content: the range
    test calls the tuple, which raises TypeError before anything is
    compared.  This holds for the four-element form with a category as
    for the triple. *)
Lemma build_pref_min_max_tuple_long (h : heap) (xs : list pyval) (n : Z) :
  Z.of_nat (length xs) = n -> 2 < n ->
  build_pref_min_max (VTuple xs) n h = Raise TypeError.
Proof.
  intros Hlen Hn. unfold build_pref_min_max.
  rewrite (proj2 (Z.eqb_eq _ _) Hlen). simpl.
  destruct (Z.gtb_spec n 2); [reflexivity | lia].
Qed.

(** X1. A tuple of the expected length n <= 2 (the empty tuple for n = 0
    included) is returned as it is, whatever it contains, and the heap is
    left alone: the range test is skipped. *)
Lemma build_pref_min_max_tuple_short (h : heap) (xs : list pyval) (n : Z) :
  Z.of_nat (length xs) = n -> n <= 2 ->
  build_pref_min_max (VTuple xs) n h = Ok (VTuple xs, h).
Proof.
  intros Hlen Hn. unfold build_pref_min_max.
  rewrite (proj2 (Z.eqb_eq _ _) Hlen). simpl.
  destruct (Z.gtb_spec n 2); [lia | reflexivity].
Qed.

(** C1 (defect). With the expected arity 3, every triple (p, mn, mx) makes
    build_pref_min_max raise TypeError: [value(1)] calls the tuple instead
    of indexing it.  The triple is neither returned when its bounds are
    ordered or absent, nor rejected with the range ValueError when they are
    not. *)
Theorem build_pref_min_max_triple_raises (h : heap) (p mn mx : pyval) :
  build_pref_min_max (VTuple [p; mn; mx]) 3 h = Raise TypeError.
Proof. reflexivity. Qed.

(** ** _assert_assign *)

(** The helper returns its argument untouched when it is a [Parameter] and
    fails the assertion otherwise. *)
Lemma assert_assign_contract (h : heap) (v : pyval) :
  _assert_assign v h
    = if issubclass (class_of h v) CParameter then Ok (v, h)
      else Raise AssertionError.
Proof.
  unfold _assert_assign, bind, isinstance.
  now destruct (issubclass (class_of h v) CParameter).
Qed.

(** ** The observation classes *)

(** The name [identifier] is bound neither in the scope of
    [BaseObservation.__init__], nor in the module, nor in the builtins. *)
Lemma BaseObservation__init___raises (self identifer location attributes : pyval)
    (h : heap) :
  BaseObservation__init__ self identifer location attributes h
    = Raise (NameError "identifier").
Proof. reflexivity. Qed.

Lemma variant_init_raises (k : variant) (self identifier location attributes : pyval)
    (h : heap) :
  variant_init k self identifier location attributes h
    = Raise (NameError "identifier").
Proof. destruct k; reflexivity. Qed.

(** The initialiser of an observation class, with its arguments bound. *)
Lemma observation_init_raises (k : variant) (sig : list param)
    (args : list pyval) (kwargs : list (string * pyval)) (h : heap) :
  let run := bind (bind_args sig args kwargs) (apply4 (variant_init k)) in
  run h = Raise TypeError \/ run h = Raise (NameError "identifier").
Proof.
  intros run. unfold run.
  destruct (bind_args_cases sig args kwargs h) as [E|[vs E]].
  - left. now apply bind_raise.
  - rewrite (bind_ok _ _ _ _ _ E).
    destruct vs as [|x1 [|x2 [|x3 [|x4 [|x5 vs]]]]]; simpl; auto.
    right. apply variant_init_raises.
Qed.

(** No call of an observation class returns: it raises TypeError when the
    arguments do not fit the signature and NameError otherwise. *)
Lemma new_observation_raises (k : variant) (args : list pyval)
    (kwargs : list (string * pyval)) (h : heap) :
  new_observation k args kwargs h = Raise TypeError
  \/ new_observation k args kwargs h = Raise (NameError "identifier").
Proof.
  unfold new_observation, instantiate.
  rewrite (bind_ok _ _ h (VRef (length h))
             (h ++ [Instance (variant_class k) ∅])) by reflexivity.
  destruct (observation_init_raises k
              (required ["self"; "identifier"; "location"; "attributes"])
              (VRef (length h) :: args) kwargs
              (h ++ [Instance (variant_class k) ∅])) as [E|E].
  - left. now apply bind_raise.
  - right. now apply bind_raise.
Qed.

(** With the three arguments passed by position it is the NameError. *)
Lemma new_observation_positional (k : variant)
    (identifier location attributes : pyval) (h : heap) :
  new_observation k [identifier; location; attributes] [] h
    = Raise (NameError "identifier").
Proof. destruct k; reflexivity. Qed.

(** C2 (defect). Whatever the attribute mapping holds in the fields that
    need an uncertainty envelope, a Parameter or anything else, the
    construction of an observation of any of the four classes raises
    NameError for the name [identifier]: it neither fails the assertion of
    _assert_assign nor yields an object exposing the value. *)
Theorem observation_envelope_check_unreached (k : variant) (h : heap)
    (identifier location attributes : pyval) :
  new_observation k [identifier; location; attributes] [] h
    = Raise (NameError "identifier")
  /\ new_observation k [identifier; location; attributes] [] h
       <> Raise AssertionError
  /\ forall o h',
       new_observation k [identifier; location; attributes] [] h
         <> Ok (o, h').
Proof.
  rewrite new_observation_positional. repeat split; discriminate.
Qed.

(** C5 (defect). On a mapping that lacks the key Notes, the construction
    of an observation of any class raises NameError for [identifier] and
    not KeyError for Notes; and on the mapping that has Notes with the
    value None it raises the same NameError instead of being accepted. *)
Theorem observation_missing_key_not_reported (k : variant) :
  new_observation k [VStr "OBS1"; VRef 0%nat; VRef 1%nat] [] sample_heap
    = Raise (NameError "identifier")
  /\ new_observation k [VStr "OBS1"; VRef 0%nat; VRef 2%nat] [] sample_heap
       = Raise (NameError "identifier")
  /\ forall args kwargs h key,
       new_observation k args kwargs h <> Raise (KeyError key).
Proof.
  rewrite !new_observation_positional. repeat split.
  intros args kwargs h key.
  destruct (new_observation_raises k args kwargs h) as [E|E];
    rewrite E; discriminate.
Qed.

(** C10 (defect). No construction of an observation fails the assertion
    on the location and none returns an object, whether the location is a
    Point or not and however the arguments are passed: line 102 raises
    before the location is looked at. *)
Theorem observation_location_never_stored (k : variant) (args : list pyval)
    (kwargs : list (string * pyval)) (h : heap) :
  new_observation k args kwargs h <> Raise AssertionError
  /\ forall o h', new_observation k args kwargs h <> Ok (o, h').
Proof.
  destruct (new_observation_raises k args kwargs h) as [E|E];
    rewrite E; split; try discriminate; intros; discriminate.
Qed.

(** ** BaseFault, NeotectonicSection, NeotectonicFault *)

Lemma BaseFault__init___raises (identifier name attributes : pyval) (h : heap) :
  BaseFault__init__ identifier name attributes h = Raise (NameError "self").
Proof. reflexivity. Qed.

(** No call of [BaseFault] returns.  With the three documented arguments
    the initialiser receives four values for three parameters. *)
Lemma new_BaseFault_raises (args : list pyval) (kwargs : list (string * pyval))
    (h : heap) :
  new_BaseFault args kwargs h = Raise TypeError
  \/ new_BaseFault args kwargs h = Raise (NameError "self").
Proof.
  unfold new_BaseFault, instantiate.
  rewrite (bind_ok _ _ h (VRef (length h)) (h ++ [Instance CBaseFault ∅]))
    by reflexivity.
  set (h1 := h ++ _).
  destruct (bind_args_cases (required ["identifier"; "name"; "attributes"])
              (VRef (length h) :: args) kwargs h1) as [E|[vs E]].
  - left. now apply bind_raise, bind_raise.
  - destruct vs as [|x1 [|x2 [|x3 [|x4 vs]]]];
      try (left; apply bind_raise; now rewrite (bind_ok _ _ _ _ _ E)).
    right. apply bind_raise. rewrite (bind_ok _ _ _ _ _ E).
    apply BaseFault__init___raises.
Qed.

Lemma new_BaseFault_three_arguments (identifier name attributes : pyval)
    (h : heap) :
  new_BaseFault [identifier; name; attributes] [] h = Raise TypeError.
Proof. reflexivity. Qed.

(** A call of one of the two [def]s either raises TypeError or returns
    None without touching the heap. *)
Lemma one_parameter_def_cases (name : string) (args : list pyval)
    (kwargs : list (string * pyval)) (h : heap) :
  let call := bind (bind_args (required [name]) args kwargs)
                (fun _ => ret VNone) in
  call h = Raise TypeError \/ call h = Ok (VNone, h).
Proof.
  intros call. unfold call.
  destruct (bind_args_cases (required [name]) args kwargs h) as [E|[vs E]].
  - left. now apply bind_raise.
  - right. now rewrite (bind_ok _ _ _ _ _ E).
Qed.

Lemma NeotectonicSection_many_arguments (args : list pyval)
    (kwargs : list (string * pyval)) (h : heap) :
  (2 <= length args + length kwargs)%nat ->
  NeotectonicSection args kwargs h = Raise TypeError.
Proof.
  intros Hlen. unfold NeotectonicSection.
  apply bind_raise. now apply one_parameter_call.
Qed.

Lemma NeotectonicFault_many_arguments (args : list pyval)
    (kwargs : list (string * pyval)) (h : heap) :
  (2 <= length args + length kwargs)%nat ->
  NeotectonicFault args kwargs h = Raise TypeError.
Proof.
  intros Hlen. unfold NeotectonicFault.
  apply bind_raise. now apply one_parameter_call.
Qed.

(** C6 (defect). The end-to-end scenario stops at its first step: the
    construction of the first slip-rate observation raises NameError, so
    no section and no fault come to exist, for any locations, attribute
    mappings and trace. *)
Theorem end_to_end_raises (h : heap)
    (p1 p2 p3 a1 a2 a3 trace section_attributes : pyval) :
  end_to_end p1 p2 p3 a1 a2 a3 trace section_attributes h
    = Raise (NameError "identifier").
Proof.
  unfold end_to_end. apply bind_raise.
  apply (new_observation_positional SlipRate_obs).
Qed.

(** C7 (defect). Called with an identifier, a name and a sequence of
    sections, with or without an attribute mapping, [NeotectonicFault]
    raises TypeError; and no call of it at all produces a fault: what does
    not raise returns None and leaves the heap as it was, so there is no
    object whose summary data could be a bundle or None. *)
Theorem NeotectonicFault_builds_no_fault :
  (forall h identifier name sections attributes,
     NeotectonicFault [identifier; name; sections; attributes] [] h
       = Raise TypeError)
  /\ (forall h identifier name sections,
        NeotectonicFault [identifier; name; sections] [] h = Raise TypeError)
  /\ (forall args kwargs h,
        NeotectonicFault args kwargs h = Raise TypeError
        \/ NeotectonicFault args kwargs h = Ok (VNone, h)).
Proof.
  repeat split; try reflexivity.
  intros args kwargs h. apply (one_parameter_def_cases "object").
Qed.

(** ** Reading and updating the heap *)

Section Running.
(** A heap [h] in which [self] is an instance of [c] and [attributes] a
    dict [m]; the statements of an initialiser only ever touch the
    attributes of [self]. *)
Variables (h : heap) (self : pyval) (c : class) (d0 : gmap string pyval).
Hypothesis Hself : instance_at h self = Some (c, d0).

Lemma self_is_ref : exists l, self = VRef l /\ h !! l = Some (Instance c d0).
Proof using Hself.
  destruct self as [| | | | | |l| | |]; try discriminate Hself.
  exists l. split; [reflexivity|]. simpl in Hself.
  destruct (h !! l) as [[c' d'| |]|]; try discriminate Hself.
  now injection Hself as -> ->.
Qed.

Lemma put_initial : put h self c d0 = h.
Proof using Hself.
  destruct self_is_ref as (l & -> & Hl). simpl. now apply list_insert_id.
Qed.

Lemma put_put d d' : put (put h self c d) self c d' = put h self c d'.
Proof using Hself.
  destruct self_is_ref as (l & -> & Hl). simpl.
  apply list_insert_insert_eq.
Qed.

Lemma instance_at_put d : instance_at (put h self c d) self = Some (c, d).
Proof using Hself.
  destruct self_is_ref as (l & -> & Hl). unfold instance_at, put.
  rewrite list_lookup_insert_eq; [reflexivity|].
  now apply lookup_lt_Some in Hl.
Qed.

Lemma attr_put d name : attr (put h self c d) self name = d !! name.
Proof using Hself. unfold attr. now rewrite instance_at_put. Qed.

Lemma lookup_put_same d l :
  self = VRef l -> (put h self c d) !! l = Some (Instance c d).
Proof using Hself.
  intros Hs. pose proof (instance_at_put d) as Hd.
  unfold instance_at in Hd. rewrite Hs in Hd. rewrite Hs.
  destruct (put h (VRef l) c d !! l) as [[c' d'| |]|]; try discriminate Hd.
  now injection Hd as -> ->.
Qed.

Lemma lookup_put_other d l :
  self <> VRef l -> (put h self c d) !! l = h !! l.
Proof using Hself.
  intros Hne. destruct self_is_ref as (l0 & -> & Hl). unfold put.
  apply list_lookup_insert_ne. congruence.
Qed.

(** The kind of every object, and the class of every instance, is the
    same in [put h self c d] as in [h]. *)
Lemma lookup_put_kind d l :
  match (put h self c d) !! l, h !! l with
  | Some (Instance c1 _), Some (Instance c2 _) => c1 = c2
  | o1, o2 => o1 = o2
  end.
Proof using Hself.
  destruct self_is_ref as (l0 & Hs & Hl).
  destruct (decide (l0 = l)) as [<-|Hne].
  - rewrite (lookup_put_same d l0 Hs), Hl. reflexivity.
  - rewrite lookup_put_other by (rewrite Hs; congruence).
    now destruct (h !! l) as [[c' d'| |]|].
Qed.

Lemma class_of_put d v : class_of (put h self c d) v = class_of h v.
Proof using Hself.
  destruct v as [| | | | | |l| | |]; try reflexivity. unfold class_of.
  pose proof (lookup_put_kind d l) as K.
  destruct (put h self c d !! l) as [[c1 d1| |]|],
           (h !! l) as [[c2 d2| |]|]; simpl in K.
  all: by simplify_eq.
Qed.

Lemma truthy_put d v : truthy (put h self c d) v = truthy h v.
Proof using Hself.
  destruct v as [| | | | | |l| | |]; try reflexivity. unfold truthy.
  pose proof (lookup_put_kind d l) as K.
  destruct (put h self c d !! l) as [[c1 d1| |]|],
           (h !! l) as [[c2 d2| |]|]; simpl in K.
  all: by simplify_eq.
Qed.

Lemma dict_at_put d v : dict_at (put h self c d) v = dict_at h v.
Proof using Hself.
  destruct v as [| | | | | |l| | |]; try reflexivity. unfold dict_at.
  pose proof (lookup_put_kind d l) as K.
  destruct (put h self c d !! l) as [[c1 d1| |]|],
           (h !! l) as [[c2 d2| |]|]; simpl in K.
  all: by simplify_eq.
Qed.

(** *** One statement at a time *)

Lemma setattr_put d name x :
  setattr self name x (put h self c d)
    = Ok (tt, put h self c (<[name := x]> d)).
Proof using Hself.
  destruct self_is_ref as (l & Hs & Hl).
  pose proof (lookup_put_same d l Hs) as E.
  pose proof (put_put d (<[name := x]> d)) as P.
  rewrite Hs in E, P |- *. unfold setattr. rewrite E.
  unfold put in P |- *. now rewrite P.
Qed.

Lemma getattr_put d name x :
  d !! name = Some x ->
  getattr self name (put h self c d) = Ok (x, put h self c d).
Proof using Hself.
  intros Hx. destruct self_is_ref as (l & Hs & Hl).
  pose proof (lookup_put_same d l Hs) as E.
  rewrite Hs in E |- *. unfold getattr. now rewrite E, Hx.
Qed.

Variables (attributes : pyval) (m : gmap string pyval).
Hypothesis Hattributes : dict_at h attributes = Some m.

Lemma subscript_put d key :
  subscript attributes key (put h self c d)
    = match m !! key with
      | Some x => Ok (x, put h self c d)
      | None => Raise (KeyError key)
      end.
Proof using Hself Hattributes.
  pose proof (dict_at_put d attributes) as Hd. rewrite Hattributes in Hd.
  unfold dict_at in Hd. unfold subscript.
  destruct attributes as [| | | | | |l| | |]; try discriminate Hd.
  destruct (put h self c d !! l) as [[c' d'| |]|]; try discriminate Hd.
  now injection Hd as ->.
Qed.

Lemma store_put d field key x :
  m !! key = Some x ->
  store self field attributes key (put h self c d)
    = Ok (tt, put h self c (<[field := x]> d)).
Proof using Hself Hattributes.
  intros Hx. unfold store.
  rewrite (bind_ok _ _ _ x (put h self c d))
    by now rewrite subscript_put, Hx.
  apply setattr_put.
Qed.

Lemma store_put_missing d field key :
  m !! key = None ->
  store self field attributes key (put h self c d) = Raise (KeyError key).
Proof using Hself Hattributes.
  intros Hx. unfold store. apply bind_raise.
  now rewrite subscript_put, Hx.
Qed.

(** A field that needs an uncertainty envelope: a [Parameter] is stored as
    it is, anything else fails the assertion. *)
Lemma store_checked_put d field key x :
  m !! key = Some x ->
  issubclass (class_of h x) CParameter = true ->
  store_checked self field attributes key (put h self c d)
    = Ok (tt, put h self c (<[field := x]> d)).
Proof using Hself Hattributes.
  intros Hx Hp. unfold store_checked.
  rewrite (bind_ok _ _ _ x (put h self c d))
    by now rewrite subscript_put, Hx.
  rewrite (bind_ok _ _ _ x (put h self c d)).
  - apply setattr_put.
  - now rewrite assert_assign_contract, class_of_put, Hp.
Qed.

Lemma store_checked_rejects d field key x :
  m !! key = Some x ->
  issubclass (class_of h x) CParameter = false ->
  store_checked self field attributes key (put h self c d)
    = Raise AssertionError.
Proof using Hself Hattributes.
  intros Hx Hp. unfold store_checked.
  rewrite (bind_ok _ _ _ x (put h self c d))
    by now rewrite subscript_put, Hx.
  apply bind_raise.
  now rewrite assert_assign_contract, class_of_put, Hp.
Qed.

Lemma is_true_put d v :
  is_true v (put h self c d) = Ok (truthy h v, put h self c d).
Proof using Hself. unfold is_true. now rewrite truthy_put. Qed.

Lemma isinstance_put d v k :
  isinstance v k (put h self c d)
    = Ok (issubclass (class_of h v) k, put h self c d).
Proof using Hself. unfold isinstance. now rewrite class_of_put. Qed.
(** *** The same, as steps of a sequence *)

Context {B : Type}.

Lemma run_setattr (k : unit -> M B) d name x :
  bind (setattr self name x) k (put h self c d)
    = k tt (put h self c (<[name := x]> d)).
Proof using Hself. apply bind_ok, setattr_put. Qed.

Lemma run_getattr (k : pyval -> M B) d name x :
  d !! name = Some x ->
  bind (getattr self name) k (put h self c d) = k x (put h self c d).
Proof using Hself. intros Hx. now apply bind_ok, getattr_put. Qed.

Lemma run_subscript (k : pyval -> M B) d key x :
  m !! key = Some x ->
  bind (subscript attributes key) k (put h self c d)
    = k x (put h self c d).
Proof using Hself Hattributes.
  intros Hx. apply bind_ok. now rewrite subscript_put, Hx.
Qed.

Lemma run_store (k : unit -> M B) d field key x :
  m !! key = Some x ->
  bind (store self field attributes key) k (put h self c d)
    = k tt (put h self c (<[field := x]> d)).
Proof using Hself Hattributes. intros Hx. now apply bind_ok, store_put. Qed.

Lemma run_is_true (k : bool -> M B) d v :
  bind (is_true v) k (put h self c d) = k (truthy h v) (put h self c d).
Proof using Hself. apply bind_ok, is_true_put. Qed.

Lemma run_isinstance (k : bool -> M B) d v cls :
  bind (isinstance v cls) k (put h self c d)
    = k (issubclass (class_of h v) cls) (put h self c d).
Proof using Hself. apply bind_ok, isinstance_put. Qed.
End Running.

(** A freshly allocated instance sits at the end of the heap, and what was
    there before is still there. *)
Lemma instance_at_fresh (h : heap) (c : class) :
  instance_at (h ++ [Instance c ∅]) (VRef (length h)) = Some (c, ∅).
Proof.
  unfold instance_at. now rewrite lookup_app_r, Nat.sub_diag by lia.
Qed.

Lemma dict_at_app (h : heap) (o : object) (v : pyval) (m : gmap string pyval) :
  dict_at h v = Some m -> dict_at (h ++ [o]) v = Some m.
Proof.
  destruct v as [| | | | | |l| | |]; try discriminate. unfold dict_at.
  destruct (h !! l) as [x|] eqn:E; [|discriminate].
  now rewrite (lookup_app_l_Some _ _ _ _ E).
Qed.

Lemma class_of_app (h : heap) (o : object) (v : pyval) :
  class_of h v <> CObject -> class_of (h ++ [o]) v = class_of h v.
Proof.
  destruct v as [| | | | | |l| | |]; try reflexivity. unfold class_of.
  destruct (h !! l) as [x|] eqn:E; [|congruence].
  now rewrite (lookup_app_l_Some _ _ _ _ E).
Qed.

(** ** Parameter and the ordering of its bounds *)

(** The initialiser writes its six attributes and nothing else. *)
Lemma Parameter__init___put (h : heap) (self : pyval) (c : class)
    (d0 d : gmap string pyval)
    (value minimum maximum completeness distribution : pyval) :
  instance_at h self = Some (c, d0) ->
  Parameter__init__ self value minimum maximum completeness distribution
    (put h self c d)
  = Ok (tt, put h self c
              (<["comment" := VNone]>
                (<["distribution" := distribution]>
                  (<["completeness" := completeness]>
                    (<["maximum" := maximum]>
                      (<["minimum" := minimum]>
                        (<["value" := value]> d))))))).
Proof.
  intros Hself. unfold Parameter__init__.
  do 5 (erewrite bind_ok by (eapply setattr_put; eassumption)).
  eapply setattr_put; eassumption.
Qed.

(** C8 (amended). [Parameter(value, minimum, maximum, completeness,
    distribution)] always returns a new object that holds the five
    arguments as they were given and a comment set to None.  Nothing is
    compared: the bounds of the object are in order exactly when the
    bounds passed to the call are. *)
Theorem new_Parameter_keeps_bounds (h : heap)
    (value minimum maximum completeness distribution : pyval) :
  let p := VRef (length h) in
  exists h',
    new_Parameter [value; minimum; maximum; completeness; distribution] [] h
      = Ok (p, h')
    /\ attr h' p "value" = Some value
    /\ attr h' p "minimum" = Some minimum
    /\ attr h' p "maximum" = Some maximum
    /\ attr h' p "completeness" = Some completeness
    /\ attr h' p "distribution" = Some distribution
    /\ attr h' p "comment" = Some VNone
    /\ (Parameter_invariant h' p <-> ordered minimum maximum).
Proof.
  intros p. set (h1 := h ++ [Instance CParameter ∅]).
  pose proof (instance_at_fresh h CParameter) as Hself. fold h1 p in Hself.
  pose proof (Parameter__init___put h1 p CParameter ∅ ∅
                value minimum maximum completeness distribution Hself) as Hrun.
  rewrite (put_initial _ _ _ _ Hself) in Hrun.
  eexists. split.
  - unfold new_Parameter, instantiate.
    rewrite (bind_ok _ _ h p h1) by reflexivity.
    erewrite bind_ok; [reflexivity|].
    rewrite (bind_ok _ _ h1
               [p; value; minimum; maximum; completeness; distribution] h1)
      by reflexivity.
    exact Hrun.
  - rewrite !(attr_put _ _ _ _ Hself).
    repeat split; try reflexivity.
    + intros Hinv. apply Hinv; rewrite (attr_put _ _ _ _ Hself); reflexivity.
    + intros Hord mn mx. rewrite !(attr_put _ _ _ _ Hself).
      intros [= <-] [= <-]. exact Hord.
Qed.

(** C8 (counterexample). [Parameter(1, 5, 2)] is built without complaint
    and its minimum 5 exceeds its maximum 2. *)
Lemma Parameter_unordered_bounds_accepted :
  exists p h',
    new_Parameter [VInt 1; VInt 5; VInt 2] [] [] = Ok (p, h')
    /\ attr h' p "minimum" = Some (VInt 5)
    /\ attr h' p "maximum" = Some (VInt 2)
    /\ ~ Parameter_invariant h' p.
Proof.
  eexists _, _. split; [reflexivity|].
  split; [reflexivity|]. split; [reflexivity|].
  intros Hinv.
  specialize (Hinv (VInt 5) (VInt 2) eq_refl eq_refl eq_refl eq_refl).
  discriminate Hinv.
Qed.

(** ** The accuracy of a spatial record *)

Lemma unboxed_numbers_lookup (h : heap) (l : loc) (c : class)
    (d : gmap string pyval) :
  unboxed_numbers h = true -> h !! l = Some (Instance c d) ->
  issubclass c CInt = false /\ issubclass c CFloat = false.
Proof.
  intros Hu Hl. unfold unboxed_numbers in Hu.
  rewrite forallb_forall in Hu.
  assert (Hin : In (Instance c d) h).
  { apply list_elem_of_In, list_elem_of_lookup. eauto. }
  specialize (Hu _ Hin). simpl in Hu.
  apply andb_true_iff in Hu as [H1 H2].
  now rewrite negb_true_iff in H1, H2.
Qed.

(** What the two class tests of line 108 answer on each kind of value. *)
Lemma classify_scale (h : heap) (scale : pyval) :
  unboxed_numbers h = true ->
  let is_int := issubclass (class_of h scale) CInt in
  let is_float := issubclass (class_of h scale) CFloat in
  match scale with
  | VInt _ | VBool _ => is_int = true
  | VFloat _ => is_int = false /\ is_float = true
  | _ => is_int = false /\ is_float = false
  end.
Proof.
  intros Hu. destruct scale as [| | | | | |l| | |]; simpl; auto.
  destruct (h !! l) as [[c d| |]|] eqn:E; auto.
  eapply unboxed_numbers_lookup; eauto.
Qed.


(** One statement of an initialiser, run on [put h self c d]. *)
Ltac step Hself Hattr :=
  first
    [ rewrite bind_assoc
    | rewrite bind_ret
    | rewrite (run_setattr _ _ _ _ Hself)
    | erewrite (run_store _ _ _ _ Hself _ _ Hattr) by eassumption
    | erewrite (run_subscript _ _ _ _ Hself _ _ Hattr) by eassumption
    | rewrite (run_is_true _ _ _ _ Hself)
    | rewrite (run_isinstance _ _ _ _ Hself)
    | erewrite (run_getattr _ _ _ _ Hself) by apply lookup_insert_eq ];
  cbv beta.

Lemma BaseObservation_fields_put (h : heap) (self : pyval) (c : class)
    (d0 d : gmap string pyval) (location attributes : pyval)
    (m : gmap string pyval) (accuracy scale notes section feature : pyval) :
  instance_at h self = Some (c, d0) ->
  dict_at h attributes = Some m ->
  unboxed_numbers h = true ->
  issubclass (class_of h location) CPoint = true ->
  m !! "Scale" = Some scale ->
  m !! "Accuracy" = Some accuracy ->
  m !! "Notes" = Some notes ->
  m !! "Fault Section" = Some section ->
  m !! "Site Feature" = Some feature ->
  BaseObservation_fields self location attributes (put h self c d)
  = Ok (tt, put h self c
              (<["site_feature" := feature]>
                (<["fault_section" := section]>
                  (<["notes" := notes]>
                    (<["accuracy" := derived_accuracy h accuracy scale]>
                      (<["scale" := scale]>
                        (<["location" := location]> d))))))).
Proof.
  intros Hself Hattr Hu Hpoint Hscale Hacc Hnotes Hsection Hfeature.
  unfold BaseObservation_fields, derived_accuracy.
  step Hself Hattr. rewrite Hpoint. unfold py_assert.
  do 5 step Hself Hattr.
  destruct (truthy h accuracy).
  - do 3 step Hself Hattr. eapply store_put; eassumption.
  - pose proof (classify_scale h scale Hu) as Hcls. cbv zeta in Hcls.
    do 5 step Hself Hattr.
    destruct scale; cbv beta iota in Hcls;
      try (apply proj2 in Hcls as Hfloat); try (apply proj1 in Hcls);
      rewrite Hcls;
      repeat (step Hself Hattr; cbv iota);
      try rewrite Hfloat; unfold py_double, as_int, twice;
      repeat (step Hself Hattr; cbv iota);
      eapply store_put; eassumption.
Qed.

(** X22. Past line 102 the location is what is tested first: a location
    that is not a Point fails the assertion whatever [self] and the
    attribute mapping are, before any key is read. *)
Lemma BaseObservation_fields_not_point (h : heap) (self location attributes : pyval) :
  issubclass (class_of h location) CPoint = false ->
  BaseObservation_fields self location attributes h = Raise AssertionError.
Proof.
  intros Hloc. unfold BaseObservation_fields, bind, isinstance.
  now rewrite Hloc.
Qed.

(** X23. Past line 102, with a Point and a Scale, a mapping without the
    key Accuracy is a KeyError naming Accuracy: the key is read, not
    tested for, so that an absent Accuracy is never replaced by twice the
    Scale. *)
Lemma BaseObservation_fields_no_accuracy (h : heap) (self : pyval) (c : class)
    (d0 : gmap string pyval) (location attributes : pyval)
    (m : gmap string pyval) (scale : pyval) :
  instance_at h self = Some (c, d0) ->
  dict_at h attributes = Some m ->
  issubclass (class_of h location) CPoint = true ->
  m !! "Scale" = Some scale ->
  m !! "Accuracy" = None ->
  BaseObservation_fields self location attributes h
    = Raise (KeyError "Accuracy").
Proof.
  intros Hself Hattr Hpoint Hscale Hacc.
  rewrite <- (put_initial _ _ _ _ Hself) at 1.
  unfold BaseObservation_fields.
  step Hself Hattr. rewrite Hpoint. unfold py_assert.
  do 3 step Hself Hattr. apply bind_raise.
  now rewrite (subscript_put _ _ _ _ Hself _ _ Hattr), Hacc.
Qed.

Lemma FaultTrace__init___put (h : heap) (self : pyval) (c : class)
    (d0 d : gmap string pyval) (identifier geometry attributes : pyval)
    (m : gmap string pyval) (scale accuracy notes name method expression : pyval) :
  instance_at h self = Some (c, d0) ->
  dict_at h attributes = Some m ->
  issubclass (class_of h geometry) CLine = true ->
  m !! "Scale" = Some scale ->
  m !! "Accuracy" = Some accuracy ->
  m !! "Notes" = Some notes ->
  m !! "Name" = Some name ->
  m !! "Location Method" = Some method ->
  m !! "Geomorphic Expression" = Some expression ->
  FaultTrace__init__ self identifier geometry attributes (put h self c d)
  = Ok (tt, put h self c
              (<["expression" := expression]>
                (<["method" := method]>
                  (<["name" := name]>
                    (<["notes" := notes]>
                      (<["accuracy" := accuracy]>
                        (<["scale" := scale]>
                          (<["geometry" := geometry]>
                            (<["id" := identifier]> d))))))))).
Proof.
  intros Hself Hattr Hline Hscale Hacc Hnotes Hname Hmethod Hexpr.
  unfold FaultTrace__init__.
  do 2 step Hself Hattr. rewrite Hline. unfold py_assert.
  do 7 step Hself Hattr. eapply store_put; eassumption.
Qed.

(** C4 (amended). On a heap whose numbers are immediate values, with an
    attribute mapping that has the keys Accuracy and Scale:
    - the body of the point-observation initialiser past line 102, given a
      Point and the keys Notes, Fault Section and Site Feature, completes
      and leaves as accuracy the Accuracy of the mapping when that value
      is true in the sense of a condition, and otherwise twice the Scale
      when the Scale is an int, a bool or a float, and None when it is
      anything else;
    - the fault trace, given a Line and the keys Notes, Name, Location
      Method and Geomorphic Expression, is built and has as accuracy the
      Accuracy of the mapping as it is, whatever the Scale. *)
Theorem accuracy_as_coded (h : heap) (attributes : pyval)
    (m : gmap string pyval) (accuracy scale notes : pyval) :
  dict_at h attributes = Some m ->
  unboxed_numbers h = true ->
  m !! "Accuracy" = Some accuracy ->
  m !! "Scale" = Some scale ->
  m !! "Notes" = Some notes ->
  (forall self location,
     is_Some (instance_at h self) ->
     issubclass (class_of h location) CPoint = true ->
     is_Some (m !! "Fault Section") ->
     is_Some (m !! "Site Feature") ->
     exists h',
       BaseObservation_fields self location attributes h = Ok (tt, h')
       /\ attr h' self "accuracy" = Some (derived_accuracy h accuracy scale))
  /\ (forall identifier geometry,
        issubclass (class_of h geometry) CLine = true ->
        is_Some (m !! "Name") ->
        is_Some (m !! "Location Method") ->
        is_Some (m !! "Geomorphic Expression") ->
        exists h',
          new_FaultTrace [identifier; geometry; attributes] [] h
            = Ok (VRef (length h), h')
          /\ attr h' (VRef (length h)) "accuracy" = Some accuracy).
Proof.
  intros Hattr Hu Hacc Hscale Hnotes. split.
  - intros self location [[c d0] Hself] Hpoint [section Hsection]
      [feature Hfeature].
    eexists. split.
    + rewrite <- (put_initial _ _ _ _ Hself) at 1.
      eapply BaseObservation_fields_put; eassumption.
    + rewrite (attr_put _ _ _ _ Hself). now simplify_map_eq.
  - intros identifier geometry Hline [name Hname] [method Hmethod]
      [expression Hexpr].
    set (p := VRef (length h)). set (h1 := h ++ [Instance CFaultTrace ∅]).
    pose proof (instance_at_fresh h CFaultTrace) as Hself. fold h1 p in Hself.
    pose proof (dict_at_app h (Instance CFaultTrace ∅) _ _ Hattr) as Hattr1.
    fold h1 in Hattr1.
    assert (Hline1 : issubclass (class_of h1 geometry) CLine = true).
    { unfold h1. rewrite class_of_app; [assumption|].
      intros E. now rewrite E in Hline. }
    pose proof (FaultTrace__init___put h1 p CFaultTrace ∅ ∅ identifier
                  geometry attributes m scale accuracy notes name method
                  expression Hself Hattr1 Hline1 Hscale Hacc Hnotes Hname
                  Hmethod Hexpr) as Hrun.
    rewrite (put_initial _ _ _ _ Hself) in Hrun.
    eexists. split.
    + unfold new_FaultTrace, instantiate.
      rewrite (bind_ok _ _ h p h1) by reflexivity.
      erewrite bind_ok; [reflexivity|].
      rewrite (bind_ok _ _ h1 [p; identifier; geometry; attributes] h1)
        by reflexivity.
      exact Hrun.
    + rewrite (attr_put _ _ _ _ Hself). now simplify_map_eq.
Qed.

Lemma accuracy_as_coded_witness :
  (exists h',
     BaseObservation_fields (VRef 3%nat) (VRef 0%nat) (VRef 2%nat) survey_heap
       = Ok (tt, h')
     /\ attr h' (VRef 3%nat) "accuracy" = Some (VInt 50000))
  /\ (exists h',
        new_FaultTrace [VStr "T1"; VRef 1%nat; VRef 2%nat] [] survey_heap
          = Ok (VRef 4%nat, h')
        /\ attr h' (VRef 4%nat) "accuracy" = Some VNone).
Proof.
  destruct (accuracy_as_coded survey_heap (VRef 2%nat) survey_attributes
              VNone (VInt 25000) (VStr "scarp")
              eq_refl eq_refl eq_refl eq_refl eq_refl) as [Hfields Htrace].
  split.
  - apply (Hfields (VRef 3%nat) (VRef 0%nat));
      first [reflexivity | eexists; reflexivity].
  - apply (Htrace (VStr "T1") (VRef 1%nat));
      first [reflexivity | eexists; reflexivity].
Defined.

(** C4 (counterexample). A fault trace built from a mapping with Scale
    25000 and a null Accuracy has the accuracy None, where the rule of the
    specification gives 50000. *)
Lemma FaultTrace_accuracy_not_derived :
  exists h',
    new_FaultTrace [VStr "T1"; VRef 1%nat; VRef 2%nat] [] survey_heap
      = Ok (VRef 4%nat, h')
    /\ attr h' (VRef 4%nat) "accuracy" = Some VNone
    /\ spec_accuracy survey_attributes = VInt 50000
    /\ attr h' (VRef 4%nat) "accuracy" <> Some (spec_accuracy survey_attributes).
Proof.
  eexists. split; [reflexivity|].
  split; [reflexivity|]. split; [reflexivity|]. discriminate.
Qed.

(** The same mapping with Accuracy 0, a value that is present and not
    null: past line 102 the observation gets 50000 and not 0. *)
Example zero_accuracy_is_replaced :
  let m := <["Accuracy" := VInt 0]> survey_attributes in
  let h := [ Instance CPoint ∅; Instance CLine ∅; DictObj m;
             Instance CBaseObservation ∅ ] in
  exists h',
    BaseObservation_fields (VRef 3%nat) (VRef 0%nat) (VRef 2%nat) h
      = Ok (tt, h')
    /\ attr h' (VRef 3%nat) "accuracy" = Some (VInt 50000)
    /\ spec_accuracy m = VInt 0.
Proof.
  eexists. split; [reflexivity|]. split; reflexivity.
Qed.

Example accuracy_from_scale :
  accuracy_example (VInt 25000) VNone = Some (VInt 50000).
Proof. reflexivity. Qed.

Example accuracy_given :
  accuracy_example (VInt 25000) (VInt 100) = Some (VInt 100).
Proof. reflexivity. Qed.

Example accuracy_unknown_scale :
  accuracy_example (VStr "unknown") VNone = Some VNone.
Proof. reflexivity. Qed.

(** 2 * 12500.5 = 25001.0 *)
Example accuracy_from_float_scale :
  accuracy_example (VFloat (S754_finite false 6872222551506944 (-39))) VNone
    = Some (VFloat (S754_finite false 6872222551506944 (-38))).
Proof. reflexivity. Qed.

(** ** The local initialiser of NeotectonicFault *)

(** What the local [__init__] does on an instance: everything hinges on
    [isinstance(dict, attributes)], whose arguments are in the wrong
    order. *)
Lemma NeotectonicFault__init___run (h : heap) (self : pyval)
    (c : class) (d0 : gmap string pyval)
    (identifier name sections attributes : pyval) :
  instance_at h self = Some (c, d0) ->
  NeotectonicFault__init__ self identifier name sections attributes h
  = match isinstance_info CType attributes with
    | Ok true => Raise TypeError
    | Ok false =>
        Ok (tt, put h self c
                  (<["data" := VNone]>
                    (<["sections" := sections]>
                      (<["name" := name]> (<["id" := identifier]> d0)))))
    | Raise e => Raise e
    end.
Proof.
  intros Hself. unfold NeotectonicFault__init__.
  rewrite <- (put_initial _ _ _ _ Hself) at 1.
  rewrite !(run_setattr _ _ _ _ Hself).
  rewrite bind_ok with (a := VType CDict)
    (h' := put h self c (<["sections" := sections]>
                          (<["name" := name]> (<["id" := identifier]> d0))))
    by reflexivity.
  unfold bind at 1. unfold isinstance_val. simpl class_of.
  destruct (isinstance_info CType attributes) as [[|]|e]; [| |reflexivity].
  - erewrite (run_getattr _ _ _ _ Hself) by (by simplify_map_eq).
    erewrite (run_getattr _ _ _ _ Hself) by (by simplify_map_eq).
    apply bind_raise, new_BaseFault_three_arguments.
  - apply (setattr_put _ _ _ _ Hself).
Qed.

(** X24. Even with a [self] at hand, the local [__init__] never attaches
    a bundle: it either raises, or completes with data set to None; where
    the test answers True the call of [BaseFault] raises. *)
Lemma NeotectonicFault__init___never_bundles (h : heap) (self : pyval)
    (c : class) (d0 : gmap string pyval)
    (identifier name sections attributes : pyval) :
  instance_at h self = Some (c, d0) ->
  (exists e,
     NeotectonicFault__init__ self identifier name sections attributes h
       = Raise e)
  \/ (exists h',
        NeotectonicFault__init__ self identifier name sections attributes h
          = Ok (tt, h')
        /\ attr h' self "data" = Some VNone).
Proof.
  intros Hself. rewrite (NeotectonicFault__init___run _ _ _ _ _ _ _ _ Hself).
  destruct (isinstance_info CType attributes) as [[|]|e]; eauto.
  right. eexists. split; [reflexivity|].
  rewrite (attr_put _ _ _ _ Hself). by simplify_map_eq.
Qed.


(** * Further properties *)

(** ** build_pref_min_max on every input *)

Lemma build_pref_min_max_tuple_short_witness :
  build_pref_min_max (VTuple [VInt 7; VNone]) 2 [] = Ok (VTuple [VInt 7; VNone], []).
Proof.
  apply build_pref_min_max_tuple_short; [reflexivity | lia].
Defined.

Lemma build_pref_min_max_tuple_long_witness :
  build_pref_min_max (VTuple [VInt 7; VInt 5; VInt 9; VStr "A"]) 4 []
    = Raise TypeError.
Proof.
  apply build_pref_min_max_tuple_long; [reflexivity | lia].
Defined.

(** The wrapping of a value that is not a tuple, for any arity at all. *)
Lemma build_pref_min_max_wrap (h : heap) (v : pyval) (n : Z) :
  is_tuple v = false ->
  build_pref_min_max v n h
    = Ok (VTuple (v :: repeat VNone (Z.to_nat (n - 1))), h).
Proof.
  intros Hv.
  destruct v; try discriminate Hv; unfold build_pref_min_max, ret;
    simpl; now rewrite nones_range.
Qed.

(** X3. Whatever it is given, build_pref_min_max either returns a tuple
    and leaves the heap alone, or raises the length ValueError, or raises
    TypeError.  In particular the ValueError of the range test, "Minimum
    value in tuple is greater than maximum!", is never raised. *)
Theorem build_pref_min_max_outcomes (h : heap) (value : pyval) (nval : Z) :
  ((exists xs, build_pref_min_max value nval h = Ok (VTuple xs, h))
   \/ build_pref_min_max value nval h
        = Raise (ValueError "Preferred-Min-Max must be a tuple of length 3!")
   \/ build_pref_min_max value nval h = Raise TypeError)
  /\ build_pref_min_max value nval h
       <> Raise (ValueError "Minimum value in tuple is greater than maximum!").
Proof.
  assert (Hcases :
    (exists xs, build_pref_min_max value nval h = Ok (VTuple xs, h))
    \/ build_pref_min_max value nval h
         = Raise (ValueError "Preferred-Min-Max must be a tuple of length 3!")
    \/ build_pref_min_max value nval h = Raise TypeError).
  { destruct (is_tuple value) eqn:Hv.
    - destruct value as [| | | | |xs| | | |]; try discriminate Hv.
      unfold build_pref_min_max.
      destruct (Z.of_nat (length xs) =? nval); simpl negb; cbv iota.
      + destruct (nval >? 2).
        * right. right. reflexivity.
        * left. exists xs. reflexivity.
      + right. left. reflexivity.
    - left. eexists. now apply build_pref_min_max_wrap. }
  split; [exact Hcases|].
  destruct Hcases as [[xs E]|[E|E]]; rewrite E; discriminate.
Qed.

(** X4. For an arity of 1 or less, zero and negative arities included, a
    value that is not a tuple comes back as the one-element tuple (v,): the
    result then has length 1, not the arity asked for. *)
Theorem build_pref_min_max_scalar_small_arity (h : heap) (v : pyval) (n : Z) :
  is_tuple v = false ->
  n <= 1 ->
  build_pref_min_max v n h = Ok (VTuple [v], h).
Proof.
  intros Hv Hn. rewrite build_pref_min_max_wrap by assumption.
  now replace (Z.to_nat (n - 1)) with 0%nat by lia.
Qed.

Lemma build_pref_min_max_scalar_small_arity_witness :
  build_pref_min_max (VStr "normal") (-2) [] = Ok (VTuple [VStr "normal"], []).
Proof.
  apply build_pref_min_max_scalar_small_arity; [reflexivity | lia].
Defined.

(** X5. Normalising twice: the tuple built from a value that is not a
    tuple is accepted again, unchanged, when the arity is 1 or 2, and is
    refused with TypeError when the arity is 3 or more.  The output of the
    function is not a valid input of it for the arities the module is
    written for. *)
Theorem build_pref_min_max_twice (h : heap) (v : pyval) (n : Z) :
  is_tuple v = false ->
  1 <= n ->
  (let* t := build_pref_min_max v n in build_pref_min_max t n) h
    = if n <=? 2 then build_pref_min_max v n h else Raise TypeError.
Proof.
  intros Hv Hn.
  rewrite (bind_ok _ _ _ _ _ (build_pref_min_max_wrap h v n Hv)).
  rewrite (build_pref_min_max_wrap h v n Hv).
  set (t := v :: repeat VNone (Z.to_nat (n - 1))).
  assert (Hlen : Z.of_nat (length t) = n).
  { unfold t. simpl. rewrite repeat_length. lia. }
  unfold build_pref_min_max.
  rewrite (proj2 (Z.eqb_eq _ _) Hlen). simpl negb. cbv iota.
  destruct (Z.leb_spec n 2), (Z.gtb_spec n 2); try lia; reflexivity.
Qed.

Lemma build_pref_min_max_twice_witness :
  (let* t := build_pref_min_max (VInt 7) 3 in build_pref_min_max t 3) []
    = Raise TypeError
  /\ (let* t := build_pref_min_max (VInt 7) 2 in build_pref_min_max t 2) []
       = Ok (VTuple [VInt 7; VNone], []).
Proof.
  split.
  - apply (build_pref_min_max_twice [] (VInt 7) 3); [reflexivity | lia].
  - apply (build_pref_min_max_twice [] (VInt 7) 2); [reflexivity | lia].
Defined.

(** ** Calls and the heap *)

(** A keyword never replaces a value that is already bound. *)
Lemma bind_keywords_keeps ps b kwargs b' n a :
  bind_keywords ps b kwargs = Ok b' -> b !! n = Some a -> b' !! n = Some a.
Proof.
  revert b. induction kwargs as [|[k v] kwargs IH]; intros b; simpl.
  - now intros [= <-].
  - destruct (negb _); [discriminate|].
    destruct (b !! k) eqn:E; [discriminate|].
    intros Hb Hn. apply (IH _ Hb).
    rewrite lookup_insert_ne; [assumption|]. congruence.
Qed.

(** The first positional argument is the value of the first parameter. *)
Lemma bind_args_first n d ps a args kwargs h vs h' :
  bind_args ((n, d) :: ps) (a :: args) kwargs h = Ok (vs, h') ->
  exists vs', vs = a :: vs'.
Proof.
  unfold bind_args. simpl.
  destruct (bind_positional ps args) as [b|e]; [|discriminate].
  destruct (bind_keywords _ _ kwargs) as [b'|e] eqn:Hk; [|discriminate].
  rewrite (bind_keywords_keeps _ _ _ _ n a Hk) by apply lookup_insert_eq.
  destruct (fill_defaults ps b'); [|discriminate].
  intros [= <- _]. eauto.
Qed.

(** Writing the attributes of the newest object. *)
Lemma put_fresh (h : heap) (c : class) (d0 d : gmap string pyval) :
  put (h ++ [Instance c d0]) (VRef (length h)) c d = h ++ [Instance c d].
Proof.
  unfold put. rewrite insert_app_r_alt by lia. now rewrite Nat.sub_diag.
Qed.

(** The class of a value once one more instance of [c] has been
    allocated: a test that failed before, and that fails on [c], still
    fails. *)
Lemma isinstance_fresh_false (h : heap) (c k : class)
    (d : gmap string pyval) (v : pyval) :
  issubclass (class_of h v) k = false ->
  issubclass c k = false ->
  issubclass (class_of (h ++ [Instance c d]) v) k = false.
Proof.
  intros Hv Hc. destruct v as [| | | | | |l| | |]; try exact Hv.
  unfold class_of in *.
  destruct (lt_eq_lt_dec l (length h)) as [[Hlt | ->] | Hgt].
  - now rewrite lookup_app_l by assumption.
  - now rewrite lookup_app_r, Nat.sub_diag by lia.
  - rewrite lookup_ge_None_2 in Hv by lia.
    rewrite lookup_ge_None_2; [assumption|].
    rewrite length_app. simpl. lia.
Qed.

Lemma isinstance_fresh_true (h : heap) (o : object) (k : class) (v : pyval) :
  issubclass (class_of h v) k = true ->
  k <> CObject ->
  issubclass (class_of (h ++ [o]) v) k = true.
Proof.
  intros Hv Hk. rewrite class_of_app; [assumption|].
  intros E. rewrite E in Hv. destruct k; try discriminate Hv. congruence.
Qed.

(** ** Parameter: what a call leaves behind *)

(** Every call of [Parameter] either raises TypeError, when the arguments
    do not fit the signature, or appends one object to the heap. *)
Lemma new_Parameter_cases (args : list pyval) (kwargs : list (string * pyval))
    (h : heap) :
  new_Parameter args kwargs h = Raise TypeError
  \/ exists value minimum maximum completeness distribution,
       new_Parameter args kwargs h
         = Ok (VRef (length h),
               h ++ [Instance CParameter
                       (list_to_map
                          [ ("comment", VNone);
                            ("distribution", distribution);
                            ("completeness", completeness);
                            ("maximum", maximum);
                            ("minimum", minimum);
                            ("value", value) ])]).
Proof.
  unfold new_Parameter, instantiate.
  set (p := VRef (length h)). set (h1 := h ++ [Instance CParameter ∅]).
  rewrite (bind_ok _ _ h p h1) by reflexivity.
  pose proof (instance_at_fresh h CParameter) as Hself. fold h1 p in Hself.
  destruct (bind_args_cases Parameter_params (p :: args) kwargs h1)
    as [E|[vs E]].
  - left. now apply bind_raise, bind_raise.
  - destruct (bind_args_first _ _ _ _ _ _ _ _ _ E) as [vs' ->].
    destruct vs' as [|x1 [|x2 [|x3 [|x4 [|x5 [|x6 vs']]]]]];
      try (left; apply bind_raise; now rewrite (bind_ok _ _ _ _ _ E)).
    right. exists x1, x2, x3, x4, x5.
    erewrite bind_ok; [reflexivity|].
    rewrite (bind_ok _ _ _ _ _ E).
    rewrite <- (put_initial _ _ _ _ Hself).
    rewrite (Parameter__init___put _ _ _ _ _ x1 x2 x3 x4 x5 Hself).
    unfold h1, p. now rewrite put_fresh.
Qed.

(** X6. A call of [Parameter] that returns has allocated exactly one
    object, at the first free address: every object that was in the heap
    is still there unchanged, and the new object has the six attributes
    value, minimum, maximum, completeness, distribution and comment, the
    last one None, and no other. *)
Theorem new_Parameter_allocates_one (args : list pyval)
    (kwargs : list (string * pyval)) (h h' : heap) (p : pyval) :
  new_Parameter args kwargs h = Ok (p, h') ->
  p = VRef (length h)
  /\ length h' = S (length h)
  /\ (forall l o, h !! l = Some o -> h' !! l = Some o)
  /\ attr h' p "comment" = Some VNone
  /\ (forall name,
        is_Some (attr h' p name)
        <-> name ∈ ["value"; "minimum"; "maximum"; "completeness";
                    "distribution"; "comment"]).
Proof.
  intros Hnew.
  destruct (new_Parameter_cases args kwargs h)
    as [E|(v & mn & mx & c & d & E)]; rewrite E in Hnew; [discriminate|].
  injection Hnew as <- <-.
  split; [reflexivity|]. split; [rewrite length_app; simpl; lia|].
  split; [intros l o Hl; now apply lookup_app_l_Some|].
  assert (Hat : forall name,
            attr (h ++ [Instance CParameter
                          (list_to_map
                             [ ("comment", VNone); ("distribution", d);
                               ("completeness", c); ("maximum", mx);
                               ("minimum", mn); ("value", v) ])])
              (VRef (length h)) name
            = (list_to_map
                 [ ("comment", VNone); ("distribution", d);
                   ("completeness", c); ("maximum", mx);
                   ("minimum", mn); ("value", v) ] : gmap string pyval)
                !! name).
  { intros name. unfold attr, instance_at.
    now rewrite lookup_app_r, Nat.sub_diag by lia. }
  split; [now rewrite Hat|].
  intros name. rewrite Hat, <- elem_of_dom. simpl.
  rewrite !dom_insert_L, dom_empty_L.
  rewrite !elem_of_union, !elem_of_singleton, elem_of_empty.
  rewrite !elem_of_cons, elem_of_nil. tauto.
Qed.

Lemma new_Parameter_allocates_one_witness :
  VRef 1%nat = VRef (length [ListObj []])
  /\ length [ListObj [];
             Instance CParameter
               (list_to_map
                  [ ("comment", VNone); ("distribution", VNone);
                    ("completeness", VNone); ("maximum", VInt 9);
                    ("minimum", VNone); ("value", VInt 7) ])]
     = S (length [ListObj []]).
Proof.
  pose proof (new_Parameter_allocates_one [VInt 7] [("maximum", VInt 9)]
                [ListObj []] _ (VRef 1%nat) eq_refl) as (H1 & H2 & _).
  exact (conj H1 H2).
Defined.

(** X7. An object returned by [Parameter] passes _assert_assign, which
    gives back that same reference and changes nothing. *)
Theorem Parameter_passes_assert_assign (args : list pyval)
    (kwargs : list (string * pyval)) (h h' : heap) (p : pyval) :
  new_Parameter args kwargs h = Ok (p, h') ->
  _assert_assign p h' = Ok (p, h').
Proof.
  intros Hnew.
  destruct (new_Parameter_cases args kwargs h)
    as [E|(v & mn & mx & c & d & E)]; rewrite E in Hnew; [discriminate|].
  injection Hnew as <- <-.
  rewrite assert_assign_contract. unfold class_of.
  now rewrite lookup_app_r, Nat.sub_diag by lia.
Qed.

Lemma Parameter_passes_assert_assign_witness :
  exists h',
    new_Parameter [VInt 7; VInt 5; VInt 9] [] [] = Ok (VRef 0%nat, h')
    /\ _assert_assign (VRef 0%nat) h' = Ok (VRef 0%nat, h').
Proof.
  eexists. split; [reflexivity|].
  apply (Parameter_passes_assert_assign [VInt 7; VInt 5; VInt 9] [] []).
  reflexivity.
Defined.


Lemma bind_positional_too_many (ps : list param) (args : list pyval) :
  (length ps < length args)%nat -> bind_positional ps args = Raise TypeError.
Proof.
  revert ps. induction args as [|a args IH]; intros [|[n d] ps]; simpl;
    try lia; try reflexivity.
  intros Hlen. rewrite IH by lia. reflexivity.
Qed.

(** What the keywords have bound was bound before or is one of them. *)
Lemma bind_keywords_origin ps b kwargs b' n x :
  bind_keywords ps b kwargs = Ok b' -> b' !! n = Some x ->
  b !! n = Some x \/ (n, x) ∈ kwargs.
Proof.
  revert b. induction kwargs as [|[k v] kwargs IH]; intros b; simpl.
  - intros [= <-]. auto.
  - destruct (negb _); [discriminate|].
    destruct (b !! k) eqn:E; [discriminate|].
    intros Hb Hn. destruct (IH _ Hb Hn) as [Hin|Hin].
    + destruct (decide (k = n)) as [->|Hne].
      * rewrite lookup_insert_eq in Hin. injection Hin as ->.
        right. apply elem_of_cons. auto.
      * rewrite lookup_insert_ne in Hin by assumption. auto.
    + right. apply elem_of_cons. auto.
Qed.

(** X9. The only exception a call of [Parameter] can raise is TypeError.
    It is raised when more than five arguments are passed by position, and
    when no argument is passed by position and none under the keyword
    value. *)
Theorem new_Parameter_errors (args : list pyval)
    (kwargs : list (string * pyval)) (h : heap) :
  (forall e, new_Parameter args kwargs h = Raise e -> e = TypeError)
  /\ ((5 < length args)%nat -> new_Parameter args kwargs h = Raise TypeError)
  /\ (args = [] -> (forall x, ("value", x) ∉ kwargs) ->
      new_Parameter args kwargs h = Raise TypeError).
Proof.
  split; [|split].
  - intros e He.
    destruct (new_Parameter_cases args kwargs h)
      as [E|(v & mn & mx & c & d & E)]; rewrite E in He; congruence.
  - intros Hlen. unfold new_Parameter, instantiate.
    rewrite (bind_ok _ _ h (VRef (length h)) (h ++ [Instance CParameter ∅]))
      by reflexivity.
    apply bind_raise, bind_raise. unfold bind_args.
    rewrite bind_positional_too_many; [reflexivity|]. simpl. lia.
  - intros -> Hkw. unfold new_Parameter, instantiate.
    rewrite (bind_ok _ _ h (VRef (length h)) (h ++ [Instance CParameter ∅]))
      by reflexivity.
    apply bind_raise, bind_raise. unfold bind_args. simpl bind_positional.
    cbv iota.
    destruct (bind_keywords Parameter_params _ kwargs) as [b'|e] eqn:Hk.
    + unfold Parameter_params at 1. simpl fill_defaults.
      rewrite (bind_keywords_keeps _ _ _ _ "self" (VRef (length h)) Hk)
        by apply lookup_insert_eq.
      destruct (b' !! "value") as [x|] eqn:Hv; [|reflexivity].
      destruct (bind_keywords_origin _ _ _ _ _ _ Hk Hv) as [Hin|Hin].
      * rewrite lookup_insert_ne, lookup_empty in Hin by discriminate.
        discriminate Hin.
      * now destruct (Hkw x).
    + now rewrite (bind_keywords_error _ _ _ _ Hk).
Qed.

(** ** _assert_assign and what it lets through *)

Lemma issubclass_Parameter (c : class) :
  issubclass c CParameter = true <-> c = CParameter.
Proof. destruct c; split; intros H; try reflexivity; discriminate H. Qed.

(** X10. _assert_assign lets a value through exactly when it is a
    reference to an instance of [Parameter], and then returns it unchanged
    and leaves the heap alone; every other value (None, a number, a
    string, a tuple, a list, a dict, an instance of another class) fails
    the assertion. *)
Theorem assert_assign_accepts_only_Parameter (h : heap) (v : pyval) :
  (_assert_assign v h = Ok (v, h)
   <-> exists d, instance_at h v = Some (CParameter, d))
  /\ (_assert_assign v h = Raise AssertionError
      <-> forall d, instance_at h v <> Some (CParameter, d)).
Proof.
  rewrite assert_assign_contract.
  destruct (issubclass (class_of h v) CParameter) eqn:E.
  - apply issubclass_Parameter in E.
    assert (Hd : exists d, instance_at h v = Some (CParameter, d)).
    { destruct v as [| | | | | |l| | |]; try discriminate E.
      unfold class_of in E. unfold instance_at.
      destruct (h !! l) as [[c d| |]|]; try discriminate E.
      subst c. eauto. }
    split; split; try discriminate; auto.
    intros Hno. destruct Hd as [d Hd]. now destruct (Hno d).
  - assert (Hd : forall d, instance_at h v <> Some (CParameter, d)).
    { intros d Hd. destruct v as [| | | | | |l| | |]; try discriminate Hd.
      unfold class_of in E. unfold instance_at in Hd.
      destruct (h !! l) as [[c d'| |]|]; try discriminate Hd.
      injection Hd as -> _. discriminate E. }
    split; split; try discriminate; auto.
    intros [d Hd']. now destruct (Hd d).
Qed.

(** X11. The two helpers do not compose: whatever build_pref_min_max
    returns, _assert_assign refuses.  A normalised (preferred, minimum,
    maximum) tuple cannot be stored in a field that asks for an
    uncertainty envelope. *)
Theorem normalised_tuple_is_rejected (h h' : heap) (value t : pyval) (nval : Z) :
  build_pref_min_max value nval h = Ok (t, h') ->
  _assert_assign t h' = Raise AssertionError.
Proof.
  intros Hb.
  assert (Ht : is_tuple t = true).
  { destruct (is_tuple value) eqn:Hv.
    - destruct value as [| | | | |xs| | | |]; try discriminate Hv.
      unfold build_pref_min_max in Hb.
      destruct (Z.of_nat (length xs) =? nval); simpl negb in Hb;
        cbv iota in Hb; [|discriminate Hb].
      destruct (nval >? 2); [discriminate Hb|].
      now injection Hb as <- _.
    - rewrite build_pref_min_max_wrap in Hb by assumption.
      now injection Hb as <- _. }
  destruct t; try discriminate Ht. reflexivity.
Qed.

Lemma normalised_tuple_is_rejected_witness :
  _assert_assign (VTuple [VInt 7; VNone; VNone]) [] = Raise AssertionError.
Proof.
  apply (normalised_tuple_is_rejected [] [] (VInt 7) _ 3). reflexivity.
Defined.

(** ** FaultTrace *)

Lemma new_FaultTrace_positional (h : heap) (identifier geometry attributes : pyval) :
  new_FaultTrace [identifier; geometry; attributes] [] h
    = (FaultTrace__init__ (VRef (length h)) identifier geometry attributes >>
       ret (VRef (length h))) (h ++ [Instance CFaultTrace ∅]).
Proof. reflexivity. Qed.

(** X12. Given a Line and a mapping with the six keys it reads, the call
    of [FaultTrace] returns a new object at the first free address and
    leaves every other object as it was.  The object has exactly the eight
    fields id, geometry, scale, accuracy, notes, name, method and
    expression; the geometry is the reference that was passed, and every
    other field is the value of its key, unchanged. *)
Theorem FaultTrace_stores_fields (h : heap)
    (identifier geometry attributes : pyval) (m : gmap string pyval)
    (scale accuracy notes name method expression : pyval) :
  dict_at h attributes = Some m ->
  issubclass (class_of h geometry) CLine = true ->
  m !! "Scale" = Some scale ->
  m !! "Accuracy" = Some accuracy ->
  m !! "Notes" = Some notes ->
  m !! "Name" = Some name ->
  m !! "Location Method" = Some method ->
  m !! "Geomorphic Expression" = Some expression ->
  new_FaultTrace [identifier; geometry; attributes] [] h
    = Ok (VRef (length h),
          h ++ [Instance CFaultTrace
                  (list_to_map
                     [ ("expression", expression); ("method", method);
                       ("name", name); ("notes", notes);
                       ("accuracy", accuracy); ("scale", scale);
                       ("geometry", geometry); ("id", identifier) ])]).
Proof.
  intros Hattr Hline Hscale Hacc Hnotes Hname Hmethod Hexpr.
  rewrite new_FaultTrace_positional.
  set (p := VRef (length h)). set (h1 := h ++ [Instance CFaultTrace ∅]).
  pose proof (instance_at_fresh h CFaultTrace) as Hself. fold h1 p in Hself.
  pose proof (dict_at_app h (Instance CFaultTrace ∅) _ _ Hattr) as Hattr1.
  assert (Hline1 : issubclass (class_of h1 geometry) CLine = true)
    by now apply isinstance_fresh_true.
  rewrite <- (put_initial _ _ _ _ Hself).
  erewrite bind_ok
    by (eapply FaultTrace__init___put; eassumption).
  unfold ret, h1, p. now rewrite put_fresh.
Qed.

Lemma FaultTrace_stores_fields_witness :
  new_FaultTrace [VStr "T1"; VRef 1%nat; VRef 2%nat] [] survey_heap
    = Ok (VRef 4%nat,
          survey_heap ++
            [Instance CFaultTrace
               (list_to_map
                  [ ("expression", VNone); ("method", VNone);
                    ("name", VStr "trace"); ("notes", VStr "scarp");
                    ("accuracy", VNone); ("scale", VInt 25000);
                    ("geometry", VRef 1%nat); ("id", VStr "T1") ])]).
Proof.
  apply (FaultTrace_stores_fields survey_heap (VStr "T1") (VRef 1%nat)
           (VRef 2%nat) survey_attributes); reflexivity.
Defined.

(** X13. A geometry that is not a Line makes the call of [FaultTrace]
    fail its assertion, whatever the attribute mapping is: the test comes
    before the first key is read. *)
Theorem FaultTrace_rejects_non_line (h : heap)
    (identifier geometry attributes : pyval) :
  issubclass (class_of h geometry) CLine = false ->
  new_FaultTrace [identifier; geometry; attributes] [] h
    = Raise AssertionError.
Proof.
  intros Hline. rewrite new_FaultTrace_positional. apply bind_raise.
  set (p := VRef (length h)). set (h1 := h ++ [Instance CFaultTrace ∅]).
  pose proof (instance_at_fresh h CFaultTrace) as Hself. fold h1 p in Hself.
  assert (Hline1 : issubclass (class_of h1 geometry) CLine = false)
    by now apply isinstance_fresh_false.
  rewrite <- (put_initial _ _ _ _ Hself). unfold FaultTrace__init__.
  rewrite (run_setattr _ _ _ _ Hself), (run_isinstance _ _ _ _ Hself).
  now rewrite Hline1.
Qed.

Lemma FaultTrace_rejects_non_line_witness :
  new_FaultTrace [VStr "T1"; VRef 0%nat; VNone] [] survey_heap
    = Raise AssertionError.
Proof.
  apply FaultTrace_rejects_non_line. reflexivity.
Defined.

(** X14. With a Line, a mapping that lacks some of the six keys makes the
    call of [FaultTrace] raise KeyError for the first key that is missing
    in the order in which the initialiser reads them: Scale, Accuracy,
    Notes, Name, Location Method, Geomorphic Expression. *)
Theorem FaultTrace_first_missing_key (h : heap)
    (identifier geometry attributes : pyval) (m : gmap string pyval)
    (present : list string) (key : string) (later : list string) :
  dict_at h attributes = Some m ->
  issubclass (class_of h geometry) CLine = true ->
  [ "Scale"; "Accuracy"; "Notes"; "Name"; "Location Method";
    "Geomorphic Expression" ] = present ++ key :: later ->
  Forall (fun k => is_Some (m !! k)) present ->
  m !! key = None ->
  new_FaultTrace [identifier; geometry; attributes] [] h
    = Raise (KeyError key).
Proof.
  intros Hattr Hline Hkeys Hpresent Hkey.
  rewrite new_FaultTrace_positional. apply bind_raise.
  set (p := VRef (length h)). set (h1 := h ++ [Instance CFaultTrace ∅]).
  pose proof (instance_at_fresh h CFaultTrace) as Hself. fold h1 p in Hself.
  pose proof (dict_at_app h (Instance CFaultTrace ∅) _ _ Hattr) as Hattr1.
  fold h1 in Hattr1.
  assert (Hline1 : issubclass (class_of h1 geometry) CLine = true)
    by now apply isinstance_fresh_true.
  rewrite <- (put_initial _ _ _ _ Hself). unfold FaultTrace__init__.
  do 2 step Hself Hattr1. rewrite Hline1. unfold py_assert.
  do 2 step Hself Hattr1.
  destruct present as [|k1 [|k2 [|k3 [|k4 [|k5 [|k6 present]]]]]];
    simpl in Hkeys; simplify_eq;
    try (exfalso; by destruct present);
    repeat match goal with
           | H : Forall _ (_ :: _) |- _ =>
               apply Forall_cons in H as [[? ?] H]
           end;
    repeat step Hself Hattr1;
    first [ eapply store_put_missing; eassumption
          | apply bind_raise; eapply store_put_missing; eassumption ].
Qed.

Lemma FaultTrace_first_missing_key_witness :
  new_FaultTrace [VStr "T1"; VRef 1%nat; VRef 2%nat] []
    [ Instance CPoint ∅; Instance CLine ∅;
      DictObj (delete "Geomorphic Expression" (delete "Name" survey_attributes)) ]
    = Raise (KeyError "Name").
Proof.
  apply (FaultTrace_first_missing_key _ _ _ _
           (delete "Geomorphic Expression" (delete "Name" survey_attributes))
           ["Scale"; "Accuracy"; "Notes"] "Name"
           ["Location Method"; "Geomorphic Expression"]);
    try reflexivity.
  repeat constructor; eexists; reflexivity.
Defined.





(** ** Displacement *)

Lemma new_Displacement_positional (h : heap) (attributes : pyval) :
  new_Displacement [attributes] [] h
    = (Displacement__init__ (VRef (length h)) attributes >>
       ret (VRef (length h))) (h ++ [Instance CDisplacement ∅]).
Proof. reflexivity. Qed.

(** X16. Given a mapping with the keys Total, Category, Horizontal,
    Vertical and Net and a Value that is a [Parameter], the call of
    [Displacement] returns a new object at the first free address, leaves
    every other object as it was, and the object has exactly the six
    fields total, category, horizontal, vertical, net and value, each the
    value of its key; value is the very reference found under Value. *)
Theorem Displacement_stores_fields (h : heap) (attributes : pyval)
    (m : gmap string pyval) (total category horizontal vertical net value : pyval) :
  dict_at h attributes = Some m ->
  m !! "Total" = Some total ->
  m !! "Category" = Some category ->
  m !! "Horizontal" = Some horizontal ->
  m !! "Vertical" = Some vertical ->
  m !! "Net" = Some net ->
  m !! "Value" = Some value ->
  issubclass (class_of h value) CParameter = true ->
  new_Displacement [attributes] [] h
    = Ok (VRef (length h),
          h ++ [Instance CDisplacement
                  (list_to_map
                     [ ("value", value); ("net", net); ("vertical", vertical);
                       ("horizontal", horizontal); ("category", category);
                       ("total", total) ])]).
Proof.
  intros Hattr Htotal Hcat Hhor Hver Hnet Hval Hparam.
  rewrite new_Displacement_positional.
  set (p := VRef (length h)). set (h1 := h ++ [Instance CDisplacement ∅]).
  pose proof (instance_at_fresh h CDisplacement) as Hself. fold h1 p in Hself.
  pose proof (dict_at_app h (Instance CDisplacement ∅) _ _ Hattr) as Hattr1.
  fold h1 in Hattr1.
  assert (Hparam1 : issubclass (class_of h1 value) CParameter = true)
    by now apply isinstance_fresh_true.
  rewrite <- (put_initial _ _ _ _ Hself).
  erewrite bind_ok; cycle 1.
  { unfold Displacement__init__. do 5 step Hself Hattr1.
    eapply store_checked_put; eassumption. }
  unfold ret, h1, p. now rewrite put_fresh.
Qed.

Lemma Displacement_stores_fields_witness :
  new_Displacement [VRef 1%nat] [] displacement_heap
    = Ok (VRef 2%nat,
          displacement_heap ++
            [Instance CDisplacement
               (list_to_map
                  [ ("value", VRef 0%nat); ("net", VNone); ("vertical", VNone);
                    ("horizontal", VNone); ("category", VStr "A");
                    ("total", VInt 12) ])]).
Proof.
  apply (Displacement_stores_fields displacement_heap (VRef 1%nat)
           displacement_attributes); reflexivity.
Defined.

(** X17. With the five plain keys present, a Value that is anything but a
    [Parameter] (None and plain numbers included) makes the call of
    [Displacement] fail its assertion. *)
Theorem Displacement_rejects_plain_value (h : heap) (attributes : pyval)
    (m : gmap string pyval) (value : pyval) :
  dict_at h attributes = Some m ->
  Forall (fun k => is_Some (m !! k))
    ["Total"; "Category"; "Horizontal"; "Vertical"; "Net"] ->
  m !! "Value" = Some value ->
  issubclass (class_of h value) CParameter = false ->
  new_Displacement [attributes] [] h = Raise AssertionError.
Proof.
  intros Hattr Hkeys Hval Hparam.
  rewrite new_Displacement_positional. apply bind_raise.
  set (p := VRef (length h)). set (h1 := h ++ [Instance CDisplacement ∅]).
  pose proof (instance_at_fresh h CDisplacement) as Hself. fold h1 p in Hself.
  pose proof (dict_at_app h (Instance CDisplacement ∅) _ _ Hattr) as Hattr1.
  fold h1 in Hattr1.
  assert (Hparam1 : issubclass (class_of h1 value) CParameter = false)
    by now apply isinstance_fresh_false.
  repeat match goal with
         | H : Forall _ (_ :: _) |- _ => apply Forall_cons in H as [[? ?] H]
         end.
  rewrite <- (put_initial _ _ _ _ Hself).
  unfold Displacement__init__. do 5 step Hself Hattr1.
  eapply store_checked_rejects; eassumption.
Qed.

Lemma Displacement_rejects_plain_value_witness :
  new_Displacement [VRef 1%nat] []
    [ Instance CParameter ∅;
      DictObj (<["Value" := VFloat (S754_zero false)]> displacement_attributes) ]
    = Raise AssertionError.
Proof.
  apply (Displacement_rejects_plain_value _ _
           (<["Value" := VFloat (S754_zero false)]> displacement_attributes)
           (VFloat (S754_zero false))); try reflexivity.
  repeat constructor; eexists; reflexivity.
Defined.

(** ** The classes that cannot be instantiated *)

(** X18. No call of [BaseFault] returns an object: every call raises
    TypeError or NameError for the name self.  The documented call with an
    identifier, a name and a mapping raises TypeError, because the
    initialiser takes three parameters and receives four values; a call
    with two arguments fits the signature and stops at the first
    assignment through self. *)
Theorem BaseFault_cannot_be_built (args : list pyval)
    (kwargs : list (string * pyval)) (h : heap) :
  (new_BaseFault args kwargs h = Raise TypeError
   \/ new_BaseFault args kwargs h = Raise (NameError "self"))
  /\ (forall identifier name attributes,
        new_BaseFault [identifier; name; attributes] [] h = Raise TypeError)
  /\ (forall name attributes,
        new_BaseFault [name; attributes] [] h = Raise (NameError "self")).
Proof.
  split; [apply new_BaseFault_raises|].
  split; intros; reflexivity.
Qed.

(** X19. No call of [NeotectonicSection] builds a section.  With an
    identifier, a name and a mapping, with or without the keyword
    arguments of the local initialiser, it raises TypeError; with any two
    arguments or more it raises TypeError; and a call that does not raise
    returns None and leaves the heap as it was. *)
Theorem NeotectonicSection_builds_no_section (args : list pyval)
    (kwargs : list (string * pyval)) (h : heap) :
  (NeotectonicSection args kwargs h = Raise TypeError
   \/ NeotectonicSection args kwargs h = Ok (VNone, h))
  /\ ((2 <= length args + length kwargs)%nat ->
      NeotectonicSection args kwargs h = Raise TypeError)
  /\ (forall identifier name attributes geometry slip_obs,
        NeotectonicSection [identifier; name; attributes]
          [("geometry", geometry); ("slip_obs", slip_obs)] h
          = Raise TypeError).
Proof.
  split; [apply (one_parameter_def_cases "BaseFault")|].
  split; [apply NeotectonicSection_many_arguments|].
  intros. reflexivity.
Qed.

(** The initialiser of [BaseObservation], with its arguments bound. *)
Lemma BaseObservation_init_raises (sig : list param) (args : list pyval)
    (kwargs : list (string * pyval)) (h : heap) :
  let run := bind (bind_args sig args kwargs) (apply4 BaseObservation__init__) in
  run h = Raise TypeError \/ run h = Raise (NameError "identifier").
Proof.
  intros run. unfold run.
  destruct (bind_args_cases sig args kwargs h) as [E|[vs E]].
  - left. now apply bind_raise.
  - rewrite (bind_ok _ _ _ _ _ E).
    destruct vs as [|x1 [|x2 [|x3 [|x4 [|x5 vs]]]]]; simpl; auto.
Qed.

(** X20. No call of [BaseObservation] itself returns an object either.
    Passed by position, or under the keyword identifer as the signature
    spells it, the identifier leads to NameError; passed under the keyword
    identifier it is refused with TypeError by the base class, while each
    of the four subclasses takes that keyword and then raises the
    NameError. *)
Theorem BaseObservation_cannot_be_built (args : list pyval)
    (kwargs : list (string * pyval)) (h : heap) :
  (new_BaseObservation args kwargs h = Raise TypeError
   \/ new_BaseObservation args kwargs h = Raise (NameError "identifier"))
  /\ (forall i l a,
        new_BaseObservation [i; l; a] [] h = Raise (NameError "identifier")
        /\ new_BaseObservation []
             [("identifer", i); ("location", l); ("attributes", a)] h
           = Raise (NameError "identifier")
        /\ new_BaseObservation []
             [("identifier", i); ("location", l); ("attributes", a)] h
           = Raise TypeError
        /\ forall k,
             new_observation k []
               [("identifier", i); ("location", l); ("attributes", a)] h
             = Raise (NameError "identifier")).
Proof.
  split.
  - unfold new_BaseObservation, instantiate.
    rewrite (bind_ok _ _ h (VRef (length h))
               (h ++ [Instance CBaseObservation ∅])) by reflexivity.
    destruct (BaseObservation_init_raises
                (required ["self"; "identifer"; "location"; "attributes"])
                (VRef (length h) :: args) kwargs
                (h ++ [Instance CBaseObservation ∅])) as [E|E].
    + left. now apply bind_raise.
    + right. now apply bind_raise.
  - intros i l a. repeat split; try reflexivity.
    intros k. destruct k; reflexivity.
Qed.

(** ** The body of BaseObservation.__init__ past line 102 *)

(** X21. Past line 102, given a Point and a mapping with the keys Scale,
    Accuracy, Notes, Fault Section and Site Feature, the body completes:
    it stores as location the very reference it was passed, stores Scale,
    Notes, Fault Section and Site Feature unchanged, never writes the
    field id, and touches no object other than the one being
    initialised. *)
Theorem BaseObservation_fields_stores (h : heap) (self : pyval) (c : class)
    (d0 : gmap string pyval) (location attributes : pyval)
    (m : gmap string pyval) (accuracy scale notes section feature : pyval) :
  instance_at h self = Some (c, d0) ->
  dict_at h attributes = Some m ->
  unboxed_numbers h = true ->
  issubclass (class_of h location) CPoint = true ->
  m !! "Scale" = Some scale ->
  m !! "Accuracy" = Some accuracy ->
  m !! "Notes" = Some notes ->
  m !! "Fault Section" = Some section ->
  m !! "Site Feature" = Some feature ->
  exists h',
    BaseObservation_fields self location attributes h = Ok (tt, h')
    /\ attr h' self "location" = Some location
    /\ attr h' self "scale" = Some scale
    /\ attr h' self "notes" = Some notes
    /\ attr h' self "fault_section" = Some section
    /\ attr h' self "site_feature" = Some feature
    /\ attr h' self "id" = attr h self "id"
    /\ length h' = length h
    /\ (forall l, self <> VRef l -> h' !! l = h !! l).
Proof.
  intros Hself Hattr Hu Hpoint Hscale Hacc Hnotes Hsection Hfeature.
  eexists. split.
  - rewrite <- (put_initial _ _ _ _ Hself) at 1.
    eapply BaseObservation_fields_put; eassumption.
  - rewrite !(attr_put _ _ _ _ Hself).
    repeat split; try (by simplify_map_eq).
    + unfold attr. rewrite Hself. by simplify_map_eq.
    + destruct (self_is_ref _ _ _ _ Hself) as (l & -> & _).
      unfold put. apply length_insert.
    + intros l Hl. now apply (lookup_put_other _ _ _ _ Hself).
Qed.

Lemma BaseObservation_fields_stores_witness :
  exists h',
    BaseObservation_fields (VRef 3%nat) (VRef 0%nat) (VRef 2%nat) survey_heap
      = Ok (tt, h')
    /\ attr h' (VRef 3%nat) "location" = Some (VRef 0%nat)
    /\ h' !! 0%nat = survey_heap !! 0%nat.
Proof.
  destruct (BaseObservation_fields_stores survey_heap (VRef 3%nat)
              CBaseObservation ∅ (VRef 0%nat) (VRef 2%nat) survey_attributes
              VNone (VInt 25000) (VStr "scarp") VNone VNone
              eq_refl eq_refl eq_refl eq_refl eq_refl eq_refl eq_refl eq_refl
              eq_refl)
    as (h' & Hrun & Hloc & _ & _ & _ & _ & _ & _ & Hframe).
  exists h'. split; [exact Hrun|]. split; [exact Hloc|].
  apply Hframe. discriminate.
Defined.

Lemma BaseObservation_fields_not_point_witness :
  BaseObservation_fields (VRef 3%nat) (VRef 1%nat) VNone survey_heap
    = Raise AssertionError.
Proof.
  apply BaseObservation_fields_not_point. reflexivity.
Defined.

Lemma BaseObservation_fields_no_accuracy_witness :
  BaseObservation_fields (VRef 1%nat) (VRef 0%nat) (VRef 2%nat)
    [ Instance CPoint ∅; Instance CBaseObservation ∅;
      DictObj (list_to_map [("Scale", VInt 25000); ("Notes", VNone)]) ]
    = Raise (KeyError "Accuracy").
Proof.
  apply (BaseObservation_fields_no_accuracy _ _ CBaseObservation ∅ _ _
           (list_to_map [("Scale", VInt 25000); ("Notes", VNone)])
           (VInt 25000)); reflexivity.
Defined.

(** ** The local initialiser of NeotectonicFault, again *)

Lemma NeotectonicFault__init___never_bundles_witness :
  (exists e,
     NeotectonicFault__init__ (VRef 0%nat) (VStr "F1") (VStr "Fault")
       (VTuple []) VNone [Instance CObject ∅] = Raise e)
  \/ (exists h',
        NeotectonicFault__init__ (VRef 0%nat) (VStr "F1") (VStr "Fault")
          (VTuple []) VNone [Instance CObject ∅] = Ok (tt, h')
        /\ attr h' (VRef 0%nat) "data" = Some VNone).
Proof.
  apply (NeotectonicFault__init___never_bundles [Instance CObject ∅]
           (VRef 0%nat) CObject ∅). reflexivity.
Defined.

